(** * pandas_redshift: a shallow embedding of [core.py]

    The ingestion pipeline of [pandas_redshift/core.py] (column-name
    validation, schema reconciliation, type mapping, statement construction,
    staging upload and the orchestrating [pandas_to_redshift]) is embedded
    as executable Rocq functions.  Python exceptions are values of [exn]
    carried by [result]; calls on the warehouse connection, the object store
    and the local file system are recorded as [Event]s in a trace, and what
    those collaborators answer is supplied by an [Env] of oracles. *)

From Stdlib Require Import String Ascii List ZArith Lia Bool Permutation.
From stdpp Require Import gmap strings.
Import ListNotations.

Local Open Scope Z_scope.

(** ** Python exceptions and results *)

Inductive exn : Type :=
| ValueError (msg : string)
| TypeError (msg : string)
| KeyError (key : string)
| AttributeError (msg : string)
| OverflowError (msg : string)
| ExternalError (what : string).

Inductive result (A : Type) : Type :=
| Ok (a : A)
| Raise (e : exn).

Arguments Ok {A} a.
Arguments Raise {A} e.

Definition bind {A B : Type} (r : result A) (k : A -> result B) : result B :=
  match r with
  | Ok a => k a
  | Raise e => Raise e
  end.

Notation "'let*' x ':=' r 'in' k" := (bind r (fun x => k))
  (at level 10, x name, r at level 100, k at level 200).

(** ** Python [str]

    A Python string is modelled by a Rocq [string] whose characters are the
    code points 0..255; the character classes below are Python's on that
    range. *)

Module py.

Definition code (c : ascii) : N := N_of_ascii c.

Definition between (lo hi n : N) : bool := ((lo <=? n) && (n <=? hi))%N.

(** [str.isspace] on one character, which is also what [\s] matches in a
    [str] pattern and what [str.strip()] removes. *)
Definition isspace (c : ascii) : bool :=
  let n := code c in
  between 9 13 n || between 28 32 n || (n =? 133)%N || (n =? 160)%N.

(** [str.isdigit] on one character: the ten decimal digits and the
    superscripts 2, 3 and 1. *)
Definition isdigit (c : ascii) : bool :=
  let n := code c in
  between 48 57 n || (n =? 178)%N || (n =? 179)%N || (n =? 185)%N.

Definition is_decimal (c : ascii) : bool := between 48 57 (code c).

Definition lower_char (c : ascii) : ascii :=
  let n := code c in
  if between 65 90 n || (between 192 222 n && negb (n =? 215)%N)
  then ascii_of_N (n + 32)
  else c.

Fixpoint lower (s : string) : string :=
  match s with
  | EmptyString => EmptyString
  | String c s' => String (lower_char c) (lower s')
  end.

Fixpoint lstrip (s : string) : string :=
  match s with
  | EmptyString => EmptyString
  | String c s' => if isspace c then lstrip s' else s
  end.

Fixpoint rstrip (s : string) : string :=
  match s with
  | EmptyString => EmptyString
  | String c s' =>
      match rstrip s' with
      | EmptyString => if isspace c then EmptyString else String c EmptyString
      | r => String c r
      end
  end.

Definition strip (s : string) : string := rstrip (lstrip s).

(** [s.startswith(p)] *)
Fixpoint startswith (p s : string) : bool :=
  match p, s with
  | EmptyString, _ => true
  | String a p', String b s' => Ascii.eqb a b && startswith p' s'
  | String _ _, EmptyString => false
  end.

(** [s.find(sub)], with [None] for Python's [-1]. *)
Fixpoint find (sub s : string) : option nat :=
  if startswith sub s then Some O
  else match s with
       | EmptyString => None
       | String _ s' => option_map S (find sub s')
       end.

(** [sub in s] *)
Definition contains (sub s : string) : bool :=
  match find sub s with Some _ => true | None => false end.

(** [re.search('\s', s) is not None] *)
Fixpoint has_space (s : string) : bool :=
  match s with
  | EmptyString => false
  | String c s' => isspace c || has_space s'
  end.

(** [''.join(filter(pred, s))] *)
Fixpoint filter_chars (pred : ascii -> bool) (s : string) : string :=
  match s with
  | EmptyString => EmptyString
  | String c s' =>
      if pred c then String c (filter_chars pred s') else filter_chars pred s'
  end.

Fixpoint all_chars (pred : ascii -> bool) (s : string) : bool :=
  match s with
  | EmptyString => true
  | String c s' => pred c && all_chars pred s'
  end.

Definition digit_value (c : ascii) : Z := Z.of_N (code c) - 48.

Fixpoint decimal_value (acc : Z) (s : string) : Z :=
  match s with
  | EmptyString => acc
  | String c s' => decimal_value (10 * acc + digit_value c) s'
  end.

(** [str(n)] for a non-negative integer, and for any integer. *)
Fixpoint digits_of (fuel : nat) (n : Z) (acc : string) : string :=
  match fuel with
  | O => acc
  | S fuel' =>
      let acc' := String (ascii_of_N (Z.to_N (n mod 10) + 48)) acc in
      if n <? 10 then acc' else digits_of fuel' (n / 10) acc'
  end.

Definition str_of_Z (n : Z) : string :=
  digits_of (S (Z.to_nat (Z.log2 n))) n EmptyString.

Definition str_of_int (n : Z) : string :=
  if n <? 0 then "-" +:+ str_of_Z (- n) else str_of_Z n.

(** The number of decimal digits a string begins with. *)
Fixpoint leading_digits (s : string) : nat :=
  match s with
  | EmptyString => O
  | String c s' => if is_decimal c then S (leading_digits s') else O
  end.

(** [sys.get_int_max_str_digits()], at its default. *)
Definition int_max_str_digits : nat := 4300.

(** ['%.200R' % s] for a string of [isdigit] characters: the first 200
    characters of its repr. *)
Definition repr200 (s : string) : string :=
  String.substring 0 200 ("'" +:+ s +:+ "'").

Definition invalid_literal (s : string) : exn :=
  ValueError ("invalid literal for int() with base 10: " +:+ repr200 s).

(** [int(s)] for a string of [isdigit] characters.  CPython reads the
    decimal digits the string begins with and refuses more than
    [int_max_str_digits] of them; after that, anything but a non-empty
    string of decimal digits (the empty string, a superscript digit) is an
    invalid literal. *)
Definition int (s : string) : result Z :=
  if (int_max_str_digits <? leading_digits s)%nat then
    Raise (ValueError
             ("Exceeds the limit (4300 digits) for integer string conversion: "
                +:+ "value has " +:+ str_of_Z (Z.of_nat (leading_digits s))
                +:+ " digits; use sys.set_int_max_str_digits() "
                +:+ "to increase the limit"))
  else
    match s with
    | EmptyString => Raise (invalid_literal s)
    | _ =>
        if all_chars is_decimal s then Ok (decimal_value 0 s)
        else Raise (invalid_literal s)
    end.

(** [s[i:-1]] *)
Definition slice_to_last (i : nat) (s : string) : string :=
  String.substring i (String.length s - 1 - i) s.

(** [sep.join(xs)] *)
Fixpoint join (sep : string) (xs : list string) : string :=
  match xs with
  | [] => EmptyString
  | [x] => x
  | x :: rest => x +:+ sep +:+ join sep rest
  end.

(** [x in xs] for a list of strings *)
Definition mem (x : string) (xs : list string) : bool :=
  existsb (String.eqb x) xs.

(** ['%0wd' % n] for a non-negative integer. *)
Fixpoint zeros (k : nat) : string :=
  match k with
  | O => EmptyString
  | S k' => String "0" (zeros k')
  end.

Definition zfill (w : nat) (s : string) : string :=
  zeros (w - String.length s) +:+ s.

End py.


(** ** Column types and cell values

    [dtype] lists the numpy column types a DataFrame carries; [dtype_name]
    is numpy's [dtype.name]. *)

Inductive int_width : Type := W8 | W16 | W32 | W64.
Inductive float_width : Type := F16 | F32 | F64.

Inductive dtype : Type :=
| DInt (w : int_width)
| DUInt (w : int_width)
| DFloat (w : float_width)
| DBool
| DObject
| DDatetime64
| DTimedelta64
| DComplex128.

Definition int_width_bits (w : int_width) : string :=
  match w with W8 => "8" | W16 => "16" | W32 => "32" | W64 => "64" end.

Definition float_width_bits (w : float_width) : string :=
  match w with F16 => "16" | F32 => "32" | F64 => "64" end.

Definition dtype_name (d : dtype) : string :=
  match d with
  | DInt w => "int" +:+ int_width_bits w
  | DUInt w => "uint" +:+ int_width_bits w
  | DFloat w => "float" +:+ float_width_bits w
  | DBool => "bool"
  | DObject => "object"
  | DDatetime64 => "datetime64[ns]"
  | DTimedelta64 => "timedelta64[ns]"
  | DComplex128 => "complex128"
  end.

Definition int_width_eqb (a b : int_width) : bool :=
  match a, b with
  | W8, W8 | W16, W16 | W32, W32 | W64, W64 => true
  | _, _ => false
  end.

Definition float_width_eqb (a b : float_width) : bool :=
  match a, b with
  | F16, F16 | F32, F32 | F64, F64 => true
  | _, _ => false
  end.

Definition dtype_eqb (a b : dtype) : bool :=
  match a, b with
  | DInt v, DInt w => int_width_eqb v w
  | DUInt v, DUInt w => int_width_eqb v w
  | DFloat v, DFloat w => float_width_eqb v w
  | DBool, DBool | DObject, DObject | DDatetime64, DDatetime64
  | DTimedelta64, DTimedelta64 | DComplex128, DComplex128 => true
  | _, _ => false
  end.

(** [np.dtype(s)] for the type names [core.py] compares against.  ['int']
    and ['float'] name the platform's default 64-bit types; ['str'] names
    numpy's unicode string type, which no DataFrame column has (pandas keeps
    text in [object] columns), so it has no counterpart in [dtype]. *)
Definition np_dtype (s : string) : option dtype :=
  if String.eqb s "object" then Some DObject
  else if String.eqb s "int" then Some (DInt W64)
  else if String.eqb s "bool" then Some DBool
  else if String.eqb s "float" then Some (DFloat F64)
  else None.

(** [d == s] for a numpy dtype [d] and a string [s]: the string is converted
    with [np.dtype] and the two types are compared. *)
Definition dtype_eq_str (d : dtype) (s : string) : bool :=
  match np_dtype s with
  | Some d' => dtype_eqb d d'
  | None => false
  end.

(** Cell values.  A Python float is kept as its IEEE-754 binary64 bit
    pattern, so [VFloat 0] is [0.0]. *)
Inductive value : Type :=
| VNone
| VStr (s : string)
| VInt (z : Z)
| VBool (b : bool)
| VFloat (bits : Z).

(** The column type pandas gives to a column filled with one scalar. *)
Definition scalar_dtype (v : value) : dtype :=
  match v with
  | VNone => DObject
  | VStr _ => DObject
  | VInt _ => DInt W64
  | VBool _ => DBool
  | VFloat _ => DFloat F64
  end.

(** ** DataFrames *)

Record Column : Type := mkColumn
  { col_name : string; col_dtype : dtype; col_values : list value }.

Record Index : Type := mkIndex
  { index_name : option string; index_dtype : dtype; index_len : nat }.

Record DataFrame : Type := mkDataFrame
  { df_index : Index; df_columns : list Column }.

(** The operations of pandas that [core.py] calls. *)
Module pd.

(** [df.columns] *)
Definition columns (df : DataFrame) : list string :=
  map col_name (df_columns df).

(** [len(df.index)] *)
Definition nrows (df : DataFrame) : nat := index_len (df_index df).

Definition has_label (label : string) (c : Column) : bool :=
  String.eqb (col_name c) label.

(** [df.drop(labels, axis=1)]: every column carrying one of the labels is
    removed; a label that names no column is a [KeyError]. *)
Definition drop (df : DataFrame) (labels : list string) : result DataFrame :=
  match List.filter (fun l => negb (py.mem l (columns df))) labels with
  | missing :: _ => Raise (KeyError missing)
  | [] =>
      Ok (mkDataFrame (df_index df)
            (List.filter (fun c => negb (py.mem (col_name c) labels))
               (df_columns df)))
  end.

Definition broadcast (df : DataFrame) (label : string) (v : value) : Column :=
  mkColumn label (scalar_dtype v) (repeat v (nrows df)).

(** [df[label] = v] for a scalar [v]: an existing column is overwritten in
    place, a new one is appended as the last column. *)
Definition setitem_scalar (df : DataFrame) (label : string) (v : value)
  : DataFrame :=
  if py.mem label (columns df) then
    mkDataFrame (df_index df)
      (map (fun c => if has_label label c then broadcast df label v else c)
         (df_columns df))
  else
    mkDataFrame (df_index df) (df_columns df ++ [broadcast df label v]).

(** [df[label].dtype]: [df[label]] is a Series when one column carries the
    label, and a DataFrame, which has no [dtype], when several do. *)
Definition series_dtype (df : DataFrame) (label : string) : result dtype :=
  match List.filter (has_label label) (df_columns df) with
  | [] => Raise (KeyError label)
  | [c] => Ok (col_dtype c)
  | _ :: _ :: _ =>
      Raise (AttributeError "'DataFrame' object has no attribute 'dtype'")
  end.

Fixpoint select (cols : list Column) (labels : list string)
  : result (list Column) :=
  match labels with
  | [] => Ok []
  | label :: rest =>
      match List.filter (has_label label) cols with
      | [] => Raise (KeyError label)
      | found => let* more := select cols rest in Ok (found ++ more)
      end
  end.

(** [df[labels]] for a list of labels: for each label in turn, every
    column that carries it. *)
Definition getitem_labels (df : DataFrame) (labels : list string)
  : result DataFrame :=
  let* cols := select (df_columns df) labels in
  Ok (mkDataFrame (df_index df) cols).

Definition set_name (c : Column) (n : string) : Column :=
  mkColumn n (col_dtype c) (col_values c).

(** [df.columns = names], for as many names as there are columns. *)
Definition set_columns (df : DataFrame) (names : list string) : DataFrame :=
  mkDataFrame (df_index df)
    (map (fun cn => set_name (fst cn) (snd cn))
       (combine (df_columns df) names)).

Fixpoint dict_get (d : list (string * string)) (k : string)
  : option string :=
  match d with
  | [] => None
  | (k', v) :: rest =>
      match dict_get rest k with
      | Some v' => Some v'
      | None => if String.eqb k' k then Some v else None
      end
  end.

(** [df.rename(columns=d)] for a dict written as its list of items in
    insertion order (a later item for the same key wins); a name that is
    no key of [d] is kept. *)
Definition rename (df : DataFrame) (d : list (string * string)) : DataFrame :=
  mkDataFrame (df_index df)
    (map (fun c => match dict_get d (col_name c) with
                   | Some n => set_name c n
                   | None => c
                   end)
       (df_columns df)).

End pd.

(** ** [get_defaults] and [invalidate_to_schema] *)

Definition get_defaults (input_type : dtype) : value :=
  let default_val := VInt 0 in
  let default_val :=
    if dtype_eq_str input_type "object" then VStr "na" else default_val in
  let default_val :=
    if dtype_eq_str input_type "str" then VStr "na" else default_val in
  let default_val :=
    if dtype_eq_str input_type "int" then VInt 0 else default_val in
  let default_val :=
    if dtype_eq_str input_type "bool" then VBool false else default_val in
  let default_val :=
    if dtype_eq_str input_type "float" then VFloat 0 else default_val in
  default_val.

(** The loop [for schema_col_name in schema_df.columns] of
    [invalidate_to_schema], over the names still to visit. *)
Fixpoint add_missing (schema_df : DataFrame) (names : list string)
  (raw_df : DataFrame) : result DataFrame :=
  match names with
  | [] => Ok raw_df
  | schema_col_name :: rest =>
      if negb (py.mem schema_col_name (pd.columns raw_df)) then
        let* input_type := pd.series_dtype schema_df schema_col_name in
        add_missing schema_df rest
          (pd.setitem_scalar raw_df schema_col_name (get_defaults input_type))
      else add_missing schema_df rest raw_df
  end.

Definition invalidate_to_schema (raw_df : DataFrame)
  (schema_df : option DataFrame) : result DataFrame :=
  match schema_df with
  | None => Ok raw_df
  | Some schema_df =>
      if (pd.nrows schema_df =? 0)%nat then Ok raw_df
      else
        let cols_to_drop :=
          List.filter (fun raw_col_name =>
                         negb (py.mem raw_col_name (pd.columns schema_df)))
            (pd.columns raw_df) in
        let* raw_df := pd.drop raw_df cols_to_drop in
        let* raw_df := add_missing schema_df (pd.columns schema_df) raw_df in
        pd.getitem_labels raw_df (pd.columns schema_df)
  end.

(** ** The type mapper *)

Definition pd_dtype_to_redshift_dtype (dtype : string) : string :=
  if py.startswith "int64" dtype then "BIGINT"
  else if py.startswith "int" dtype then "INTEGER"
  else if py.startswith "float" dtype then "REAL"
  else if py.startswith "datetime" dtype then "TIMESTAMP"
  else if String.eqb dtype "bool" then "BOOLEAN"
  else "VARCHAR(MAX)".

(** The list comprehension of [get_column_data_types]; [json_columns] is
    [None] when the caller passed no list, and [col_name not in None] is a
    [TypeError]. *)
Fixpoint column_type_list (json_columns : option (list string))
  (cols : list Column) : result (list string) :=
  match cols with
  | [] => Ok []
  | c :: rest =>
      let* t :=
        match json_columns with
        | None => Raise (TypeError "argument of type 'NoneType' is not iterable")
        | Some names =>
            if negb (py.mem (col_name c) names)
            then Ok (pd_dtype_to_redshift_dtype (dtype_name (col_dtype c)))
            else Ok "SUPER"
        end in
      let* ts := column_type_list json_columns rest in
      Ok (t :: ts)
  end.

Definition get_column_data_types (data_frame : DataFrame) (index : bool)
  (json_columns : option (list string)) : result (list string) :=
  let* column_data_types :=
    column_type_list json_columns (df_columns data_frame) in
  if index then
    Ok (pd_dtype_to_redshift_dtype (dtype_name (index_dtype (df_index data_frame)))
          :: column_data_types)
  else Ok column_data_types.


(** ** [validate_column_names] *)

(** The loop that asserts [col not in rrwords] for each column in turn. *)
Fixpoint check_reserved (rrwords cols : list string) : result unit :=
  match cols with
  | [] => Ok tt
  | col :: rest =>
      if py.mem col rrwords then
        Raise (ValueError ("DataFrame column name " +:+ col
                             +:+ " is a reserve word in redshift"))
      else check_reserved rrwords rest
  end.

(** ['"{0}"'.format(x)] *)
Definition dquote : string := String (ascii_of_nat 34) EmptyString.

Definition quoted (x : string) : string := dquote +:+ x +:+ dquote.

(** [lines] is what [readlines()] returns for
    [redshift_reserve_words.txt].  The Python function renames the columns
    of the caller's frame in place and returns that same frame; the value
    returned here is that frame after the call. *)
Definition validate_column_names (lines : list string)
  (data_frame : DataFrame) : result DataFrame :=
  let rrwords := map (fun r => py.lower (py.strip r)) lines in
  let data_frame :=
    pd.set_columns data_frame (map py.lower (pd.columns data_frame)) in
  let* _ := check_reserved rrwords (pd.columns data_frame) in
  let there_are_spaces :=
    (0 <? length (List.filter py.has_space (pd.columns data_frame)))%nat in
  if there_are_spaces then
    let col_names_dict :=
      map (fun x => (x, quoted x)) (pd.columns data_frame) in
    Ok (pd.rename data_frame col_names_dict)
  else Ok data_frame.

(** ** Calendar dates

    A [datetime.date] is its proleptic Gregorian ordinal (day 1 is
    0001-01-01), as [date.toordinal()] gives it. *)
Module datetime.

Definition MAXORDINAL : Z := 3652059.

Definition days_in_month (month : Z) : Z :=
  match month with
  | 1 => 31 | 2 => 28 | 3 => 31 | 4 => 30 | 5 => 31 | 6 => 30
  | 7 => 31 | 8 => 31 | 9 => 30 | 10 => 31 | 11 => 30 | 12 => 31
  | _ => -1
  end.

Definition days_before_month (month : Z) : Z :=
  match month with
  | 1 => 0 | 2 => 31 | 3 => 59 | 4 => 90 | 5 => 120 | 6 => 151
  | 7 => 181 | 8 => 212 | 9 => 243 | 10 => 273 | 11 => 304 | 12 => 334
  | _ => -1
  end.

Definition b2z (b : bool) : Z := if b then 1 else 0.

(** [_ord2ymd] of the standard library. *)
Definition ord2ymd (ordinal : Z) : Z * Z * Z :=
  let n := ordinal - 1 in
  let n400 := n / 146097 in
  let n := n mod 146097 in
  let year := n400 * 400 + 1 in
  let n100 := n / 36524 in
  let n := n mod 36524 in
  let n4 := n / 1461 in
  let n := n mod 1461 in
  let n1 := n / 365 in
  let n := n mod 365 in
  let year := year + n100 * 100 + n4 * 4 + n1 in
  if (n1 =? 4) || (n100 =? 4) then (year - 1, 12, 31)
  else
    let leapyear := (n1 =? 3) && (negb (n4 =? 24) || (n100 =? 3)) in
    let month := Z.shiftr (n + 50) 5 in
    let preceding :=
      days_before_month month + b2z ((2 <? month) && leapyear) in
    if n <? preceding then
      let month := month - 1 in
      let preceding :=
        preceding - (days_in_month month + b2z ((month =? 2) && leapyear)) in
      (year, month, n - preceding + 1)
    else (year, month, n - preceding + 1).

(** [str(d)], that is [d.isoformat()]: [YYYY-MM-DD]. *)
Definition isoformat (ordinal : Z) : string :=
  let '(y, m, d) := ord2ymd ordinal in
  py.zfill 4 (py.str_of_Z y) +:+ "-" +:+ py.zfill 2 (py.str_of_Z m)
    +:+ "-" +:+ py.zfill 2 (py.str_of_Z d).

(** [d + timedelta(days=days)]: the day count has to fit a C [int], then
    to be within the range of a [timedelta], and the date has to exist. *)
Definition add_days (ordinal days : Z) : result Z :=
  if (days <? -2147483648) || (2147483647 <? days) then
    Raise (OverflowError "Python int too large to convert to C int")
  else if 999999999 <? Z.abs days then
    Raise (OverflowError ("days=" +:+ py.str_of_int days
                            +:+ "; must have magnitude <= 999999999"))
  else
    let o := ordinal + days in
    if (0 <? o) && (o <=? MAXORDINAL) then Ok o
    else Raise (OverflowError "date value out of range").

End datetime.

(** ** [_date_converter]

    The function returns its argument, a string, or a [date]. *)
Inductive boundary : Type :=
| BStr (ts : string)
| BDate (ordinal : Z).

(** [str(b)], as ['{}'.format] renders it. *)
Definition boundary_str (b : boundary) : string :=
  match b with
  | BStr ts => ts
  | BDate o => datetime.isoformat o
  end.

(** [today] is the ordinal of [date.today()]. *)
Definition _date_converter (today : Z) (ts : string) : result boundary :=
  if py.contains "current_date" ts then
    let interval_idx := py.find "interval" ts in
    let day_idx := py.find "day" ts in
    match interval_idx, day_idx with
    | Some interval_idx, Some _ =>
        let* digit :=
          py.int (py.filter_chars py.isdigit
                    (py.slice_to_last interval_idx ts)) in
        let* ts := datetime.add_days today (- digit) in
        Ok (BDate ts)
    | _, _ => Ok (BDate today)
    end
  else Ok (BStr ts).


(** ** The collaborators

    Every call on the warehouse cursor and connection, on the object store
    and on the local file system appends an [Event] to the trace.  Logging
    and printing are left out: they return nothing and decide nothing. *)

Inductive Event : Type :=
| Execute (statement : string)
| Commit
| Rollback
| WriteFile (path content : string)
| PutObject (bucket key body : string) (options : gmap string value).

(** What the world answers.  Each oracle sees the trace of the calls made
    before the one it answers; [Some what] makes the call raise
    [ExternalError what].  The last six fields are the module globals set by
    [connect_to_s3]. *)
Record Env : Type := mkEnv
  { reserve_words_lines : list string;
    today : Z;
    to_csv : DataFrame -> bool -> string -> string;
    execute_error : list Event -> string -> option string;
    commit_error : list Event -> option string;
    rollback_error : list Event -> option string;
    fetched_frame : list Event -> DataFrame;
    write_error : list Event -> string -> option string;
    put_object_error : list Event -> string -> option string;
    s3_bucket_var : string;
    s3_subdirectory_var : string;
    aws_1 : string;
    aws_2 : string;
    aws_token : string;
    aws_role : option string }.

Definition M (A : Type) : Type := list Event -> list Event * result A.

Definition ret {A : Type} (a : A) : M A := fun tr => (tr, Ok a).

Definition raise {A : Type} (e : exn) : M A := fun tr => (tr, Raise e).

Definition lift {A : Type} (r : result A) : M A := fun tr => (tr, r).

Definition mbind {A B : Type} (m : M A) (k : A -> M B) : M B :=
  fun tr =>
    match m tr with
    | (tr', Ok a) => k a tr'
    | (tr', Raise e) => (tr', Raise e)
    end.

Notation "'let!' x ':=' m 'in' k" := (mbind m (fun x => k))
  (at level 10, x name, m at level 100, k at level 200).

(** [try: body / except Exception as e: handler(e)] *)
Definition try_except {A : Type} (body : M A) (handler : exn -> M A) : M A :=
  fun tr =>
    match body tr with
    | (tr', Ok a) => (tr', Ok a)
    | (tr', Raise e) => handler e tr'
    end.

(** One call on a collaborator: the event is recorded, then the call
    returns or raises as the oracle says. *)
Definition call (ev : Event) (outcome : list Event -> option string) : M unit :=
  fun tr =>
    (tr ++ [ev],
     match outcome tr with
     | Some what => Raise (ExternalError what)
     | None => Ok tt
     end).

Section Pipeline.

Variable env : Env.

Definition cursor_execute (statement : string) : M unit :=
  call (Execute statement) (fun tr => execute_error env tr statement).

Definition connect_commit : M unit := call Commit (commit_error env).

Definition connect_rollback : M unit := call Rollback (rollback_error env).

(** The frame is [pd.DataFrame(cursor.fetchall(), columns=columns_list)]
    as the cursor stands after the statement. *)
Definition redshift_to_pandas (sql_query : string) : M DataFrame :=
  let! _ := cursor_execute sql_query in
  fun tr => (tr, Ok (fetched_frame env tr)).

(** *** Staging upload *)

Definition S3_ACCEPTED_KWARGS : list string :=
  [ "ACL"; "Body"; "CacheControl "; "ContentDisposition"; "ContentEncoding";
    "ContentLanguage"; "ContentLength"; "ContentMD5"; "ContentType";
    "Expires"; "GrantFullControl"; "GrantRead"; "GrantReadACP";
    "GrantWriteACP"; "Metadata"; "ServerSideEncryption"; "StorageClass";
    "WebsiteRedirectLocation"; "SSECustomerAlgorithm"; "SSECustomerKey";
    "SSECustomerKeyMD5"; "SSEKMSKeyId"; "RequestPayer"; "Tagging" ].

Definition is_none (v : value) : bool :=
  match v with VNone => true | _ => false end.

(** [k in S3_ACCEPTED_KWARGS and v is not None] *)
Definition accepted_kwarg (kv : string * value) : bool :=
  py.mem (fst kv) S3_ACCEPTED_KWARGS && negb (is_none (snd kv)).

(** [{k: v for k, v in kwargs.items() if ...}] *)
Definition filter_kwargs (kwargs : gmap string value) : gmap string value :=
  filter (fun kv => accepted_kwarg kv = true) kwargs.

(** [s3.Bucket(bucket).put_object(Key=key, Body=body, **extra_kwargs)]:
    a keyword given both by name and through [**extra_kwargs] is a
    [TypeError] of the call itself, before the store is reached. *)
Definition put_object (bucket key body : string)
  (extra_kwargs : gmap string value) : M unit :=
  match extra_kwargs !! "Key", extra_kwargs !! "Body" with
  | Some _, _ =>
      raise (TypeError "got multiple values for keyword argument 'Key'")
  | None, Some _ =>
      raise (TypeError "got multiple values for keyword argument 'Body'")
  | None, None =>
      call (PutObject bucket key body extra_kwargs)
        (fun tr => put_object_error env tr key)
  end.

Definition df_to_s3 (data_frame : DataFrame) (csv_name : string)
  (index save_local : bool) (delimiter : string)
  (kwargs : gmap string value) : M unit :=
  let extra_kwargs := filter_kwargs kwargs in
  let! _ :=
    if save_local then
      call (WriteFile csv_name (to_csv env data_frame index delimiter))
        (fun tr => write_error env tr csv_name)
    else ret tt in
  let csv_buffer := to_csv env data_frame index delimiter in
  put_object (s3_bucket_var env) (s3_subdirectory_var env +:+ csv_name)
    csv_buffer extra_kwargs.

(** *** Statement builder *)

Definition nonempty (s : string) : bool := negb (String.eqb s EmptyString).

(** ['{0} {1}'.format(x, y) for x, y in zip(columns, column_data_types)] *)
Definition columns_and_types (columns column_data_types : list string)
  : list string :=
  map (fun xy => fst xy +:+ " " +:+ snd xy)
    (combine columns column_data_types).

Definition create_redshift_table (data_frame : DataFrame)
  (redshift_table_name : string) (column_data_types : option (list string))
  (index append : bool) (diststyle distkey : string)
  (sort_interleaved : bool) (sortkey : string)
  (json_columns : option (list string)) : M unit :=
  let columns :=
    if index then
      match index_name (df_index data_frame) with
      | Some name =>
          if nonempty name then name :: pd.columns data_frame
          else "index" :: pd.columns data_frame
      | None => "index" :: pd.columns data_frame
      end
    else pd.columns data_frame in
  let! column_data_types :=
    match column_data_types with
    | None => lift (get_column_data_types data_frame index json_columns)
    | Some given => ret given
    end in
  let columns_and_data_type :=
    py.join ", " (columns_and_types columns column_data_types) in
  let create_table_query :=
    "create table " +:+ redshift_table_name
      +:+ " (" +:+ columns_and_data_type +:+ ")" in
  let! create_table_query :=
    if negb (nonempty distkey) then
      if negb (py.mem diststyle ["even"; "all"]) then
        raise (ValueError "diststyle must be either 'even' or 'all'")
      else ret (create_table_query +:+ " diststyle " +:+ diststyle)
    else ret (create_table_query +:+ " distkey(" +:+ distkey +:+ ")") in
  let create_table_query :=
    if (0 <? String.length sortkey)%nat then
      let create_table_query :=
        if sort_interleaved then create_table_query +:+ " interleaved"
        else create_table_query in
      create_table_query +:+ " sortkey(" +:+ sortkey +:+ ")"
    else create_table_query in
  let! _ :=
    cursor_execute ("drop table if exists " +:+ redshift_table_name +:+ ";") in
  let! _ := cursor_execute create_table_query in
  connect_commit.

Definition nl : string := String (ascii_of_nat 10) EmptyString.
Definition tab : string := String (ascii_of_nat 9) EmptyString.
Definition sp8 : string := "        ".
Definition sp7 : string := "       ".

Definition iam_role_clause (role : string) : string :=
  nl +:+ sp8 +:+ "iam_role '" +:+ role +:+ "'" +:+ nl +:+ sp8.

Definition copy_statement (redshift_table_name csv_name rs_iam_role
  delimiter quotechar dateformat timeformat region parameters : string)
  : string :=
  let bucket_name :=
    "s3://" +:+ s3_bucket_var env +:+ "/"
      +:+ (s3_subdirectory_var env +:+ csv_name) in
  let authorization :=
    if nonempty rs_iam_role then iam_role_clause rs_iam_role
    else if nonempty (aws_1 env) && nonempty (aws_2 env) then
      nl +:+ sp8 +:+ "access_key_id '" +:+ aws_1 env +:+ "'" +:+ nl
        +:+ sp8 +:+ "secret_access_key '" +:+ aws_2 env +:+ "'" +:+ nl
        +:+ sp8
    else
      match aws_role env with
      | Some role =>
          if nonempty role then iam_role_clause role else EmptyString
      | None => EmptyString
      end in
  let s3_to_sql :=
    nl +:+ sp7 +:+ "copy " +:+ redshift_table_name +:+ nl
      +:+ sp7 +:+ "from '" +:+ bucket_name +:+ "'" +:+ nl
      +:+ sp7 +:+ "delimiter '" +:+ delimiter +:+ "'" +:+ nl
      +:+ sp7 +:+ "ignoreheader 1" +:+ nl
      +:+ sp7 +:+ "csv quote as '" +:+ quotechar +:+ "'" +:+ nl
      +:+ sp7 +:+ "dateformat '" +:+ dateformat +:+ "'" +:+ nl
      +:+ sp7 +:+ "timeformat '" +:+ timeformat +:+ "'" +:+ nl
      +:+ sp7 +:+ authorization +:+ nl
      +:+ sp7 +:+ parameters +:+ nl
      +:+ sp7 in
  let s3_to_sql :=
    if nonempty region then s3_to_sql +:+ "region '" +:+ region +:+ "'"
    else s3_to_sql in
  let s3_to_sql :=
    if nonempty (aws_token env) then
      s3_to_sql +:+ nl +:+ tab +:+ "session_token '" +:+ aws_token env +:+ "'"
    else s3_to_sql in
  s3_to_sql +:+ ";".

Definition s3_to_redshift (redshift_table_name csv_name rs_iam_role
  delimiter quotechar dateformat timeformat region parameters : string)
  : M unit :=
  let s3_to_sql :=
    copy_statement redshift_table_name csv_name rs_iam_role delimiter
      quotechar dateformat timeformat region parameters in
  try_except
    (let! _ := cursor_execute s3_to_sql in connect_commit)
    (fun e => let! _ := connect_rollback in raise e).

(** *** The orchestrator *)

(** The keyword parameters of [pandas_to_redshift] ([verbose] only
    switches logging). *)
Record Options : Type := mkOptions
  { rs_iam_role : string;
    column_data_types : option (list string);
    index : bool;
    save_local : bool;
    delimiter : string;
    quotechar : string;
    dateformat : string;
    timeformat : string;
    region : string;
    append : bool;
    diststyle : string;
    distkey : string;
    sort_interleaved : bool;
    sortkey : string;
    parameters : string;
    json_columns : option (list string) }.

Definition default_options : Options :=
  {| rs_iam_role := EmptyString; column_data_types := None; index := false;
     save_local := false; delimiter := ","; quotechar := dquote;
     dateformat := "auto"; timeformat := "auto"; region := EmptyString;
     append := false; diststyle := "even"; distkey := EmptyString;
     sort_interleaved := false; sortkey := EmptyString; parameters := EmptyString;
     json_columns := None |}.

Definition pandas_to_redshift (data_frame : DataFrame)
  (redshift_table_name ts_start ts_end : string) (o : Options)
  (kwargs : gmap string value) : M unit :=
  let! data_frame :=
    lift (validate_column_names (reserve_words_lines env) data_frame) in
  let get_schema_sql :=
    "select * from " +:+ redshift_table_name +:+ " limit 1" in
  let! schema_df :=
    if append o then
      let! schema_df := redshift_to_pandas get_schema_sql in
      ret (Some schema_df)
    else ret None in
  let! data_frame := lift (invalidate_to_schema data_frame schema_df) in
  let! label_start := lift (_date_converter (today env) ts_start) in
  let! label_end := lift (_date_converter (today env) ts_end) in
  let csv_name :=
    redshift_table_name +:+ "-" +:+ boundary_str label_start +:+ "_"
      +:+ boundary_str label_end +:+ ".csv" in
  let s3_kwargs := filter_kwargs kwargs in
  let! _ :=
    df_to_s3 data_frame csv_name (index o) (save_local o) (delimiter o)
      s3_kwargs in
  let! _ :=
    if negb (append o) then
      create_redshift_table data_frame redshift_table_name
        (column_data_types o) (index o) (append o) (diststyle o) (distkey o)
        (sort_interleaved o) (sortkey o) (json_columns o)
    else ret tt in
  s3_to_redshift redshift_table_name csv_name (rs_iam_role o) (delimiter o)
    (quotechar o) (dateformat o) (timeformat o) (region o) (parameters o).

(** *** Ad hoc statements *)

Definition exec_commit (sql_query : string) : M unit :=
  let! _ := cursor_execute sql_query in
  connect_commit.

End Pipeline.

(** ** [connect_to_s3]

    The function binds the module globals; here it returns the [Env] that
    carries them, the oracles being those of the [Env] given.
    [aws_session_token] is [kwargs.get('aws_session_token')], a string when
    the keyword is given; the client object built by [boto3.resource] is
    the store's own business. *)
Definition connect_to_s3 (env : Env)
  (aws_access_key_id aws_secret_access_key bucket : string)
  (subdirectory aws_iam_role aws_session_token : option string) : Env :=
  {| reserve_words_lines := reserve_words_lines env;
     today := today env;
     to_csv := to_csv env;
     execute_error := execute_error env;
     commit_error := commit_error env;
     rollback_error := rollback_error env;
     fetched_frame := fetched_frame env;
     write_error := write_error env;
     put_object_error := put_object_error env;
     s3_bucket_var := bucket;
     s3_subdirectory_var :=
       match subdirectory with
       | None => EmptyString
       | Some subdirectory => subdirectory +:+ "/"
       end;
     aws_1 := aws_access_key_id;
     aws_2 := aws_secret_access_key;
     aws_token :=
       match aws_session_token with
       | Some token => if nonempty token then token else EmptyString
       | None => EmptyString
       end;
     aws_role := aws_iam_role |}.

(** * Derived notions, statements of the specification, sample inputs *)

(** ** Reconciliation: notions and sample inputs *)

(** The columns of the incoming frame that survive the drop. *)
Definition kept_columns (raw_df schema_df : DataFrame) : list Column :=
  List.filter (fun c => py.mem (col_name c) (pd.columns schema_df))
    (df_columns raw_df).

(** The columns the loop of [invalidate_to_schema] creates for the schema
    columns [cs] when the frame so far has the column names [present]. *)
Definition filled_columns (nrows : nat) (present : list string)
  (cs : list Column) : list Column :=
  map (fun c => mkColumn (col_name c)
                  (scalar_dtype (get_defaults (col_dtype c)))
                  (repeat (get_defaults (col_dtype c)) nrows))
    (List.filter (fun c => negb (py.mem (col_name c) present)) cs).

Definition column_has_rows (n : nat) (c : Column) : Prop :=
  length (col_values c) = n.

Definition sample_index (n : nat) : Index := mkIndex None (DInt W64) n.

Definition sample_raw : DataFrame :=
  mkDataFrame (sample_index 2)
    [ mkColumn "b" (DInt W64) [VInt 1; VInt 2];
      mkColumn "z" DObject [VStr "x"; VStr "y"] ].

Definition sample_schema : DataFrame :=
  mkDataFrame (sample_index 1)
    [ mkColumn "a" (DFloat F64) [VFloat 0];
      mkColumn "b" (DInt W64) [VInt 7];
      mkColumn "s" DObject [VStr "q"] ].

(** A reference fetched from a table that exists and is empty: it has a
    column and no row. *)
Definition schema_without_rows : DataFrame :=
  mkDataFrame (sample_index 0) [ mkColumn "a" DObject [] ].

(** A reference whose only column is a 32-bit float. *)
Definition schema_float32 : DataFrame :=
  mkDataFrame (sample_index 1) [ mkColumn "a" (DFloat F32) [VFloat 0] ].

(** The shape property as the specification has it, for a reference schema
    that is non-empty in the specification's sense (it has columns). *)
Definition shape_as_specified (raw_df schema_df : DataFrame) : Prop :=
  pd.columns schema_df <> [] ->
  exists out,
    invalidate_to_schema raw_df (Some schema_df) = Ok out
    /\ pd.columns out = pd.columns schema_df
    /\ pd.nrows out = pd.nrows raw_df.

(** The defaults as the specification words them, by kind of type. *)
Definition specified_default (d : dtype) : value :=
  match d with
  | DObject => VStr "na"
  | DInt _ | DUInt _ => VInt 0
  | DBool => VBool false
  | DFloat _ => VFloat 0
  | _ => VInt 0
  end.

(** The fill property as the specification has it, for every reference
    schema and every kind of floating-point column. *)
Definition fill_as_specified (raw_df schema_df : DataFrame) : Prop :=
  forall c, In c (df_columns schema_df) ->
            ~ In (col_name c) (pd.columns raw_df) ->
            exists out col,
              invalidate_to_schema raw_df (Some schema_df) = Ok out
              /\ In col (df_columns out)
              /\ col_name col = col_name c
              /\ col_values col
                 = repeat (specified_default (col_dtype c)) (pd.nrows raw_df).

(** ** The type mapper: notions and sample inputs *)

Definition warehouse_keywords : list string :=
  ["BIGINT"; "INTEGER"; "REAL"; "TIMESTAMP"; "BOOLEAN"; "VARCHAR(MAX)"].

(** The mapping as the specification words it, by kind of type: an
    integer of 64 bits gives BIGINT and any other integer INTEGER. *)
Definition specified_keyword (d : dtype) : string :=
  match d with
  | DInt W64 | DUInt W64 => "BIGINT"
  | DInt _ | DUInt _ => "INTEGER"
  | DFloat _ => "REAL"
  | DDatetime64 => "TIMESTAMP"
  | DBool => "BOOLEAN"
  | _ => "VARCHAR(MAX)"
  end.

(** ** Column-type inference: notions and sample inputs *)

Definition inferred_types (data_frame : DataFrame) (index : bool)
  (names : list string) : list string :=
  (if index
   then [pd_dtype_to_redshift_dtype
           (dtype_name (index_dtype (df_index data_frame)))]
   else [])
    ++ map (fun c => if py.mem (col_name c) names then "SUPER"
                     else pd_dtype_to_redshift_dtype (dtype_name (col_dtype c)))
         (df_columns data_frame).

(** ** Column-name validation: notions and sample inputs *)

(** The frame with every column name lower-cased, and the frame with every
    lower-cased name wrapped in double quotes. *)
Definition lowered_frame (df : DataFrame) : DataFrame :=
  mkDataFrame (df_index df)
    (map (fun c => pd.set_name c (py.lower (col_name c))) (df_columns df)).

Definition quoted_frame (df : DataFrame) : DataFrame :=
  mkDataFrame (df_index df)
    (map (fun c => pd.set_name c (quoted (py.lower (col_name c))))
       (df_columns df)).

Definition reserve_words (lines : list string) : list string :=
  map (fun r => py.lower (py.strip r)) lines.

Definition reserve_message (col : string) : string :=
  "DataFrame column name " +:+ col +:+ " is a reserve word in redshift".

Definition spaced_frame : DataFrame :=
  mkDataFrame (sample_index 1)
    [ mkColumn "A b" (DInt W64) [VInt 1]; mkColumn "C" DObject [VStr "x"] ].

Definition plain_frame : DataFrame :=
  mkDataFrame (sample_index 1)
    [ mkColumn "Ab" (DInt W64) [VInt 1]; mkColumn "C" DObject [VStr "x"] ].

Definition reserved_frame : DataFrame :=
  mkDataFrame (sample_index 1)
    [ mkColumn "Ab" (DInt W64) [VInt 1]; mkColumn "Table" DObject [VStr "x"] ].

Definition sample_lines : list string :=
  [ "SELECT" +:+ String (ascii_of_nat 10) EmptyString;
    "TABLE" +:+ String (ascii_of_nat 10) EmptyString ].

(** The quoting as the specification has it: a column is quoted exactly
    when its own lower-cased name contains whitespace. *)
Definition quoting_as_specified (lines : list string) (df : DataFrame)
  : Prop :=
  forall out,
    validate_column_names lines df = Ok out ->
    pd.columns out
    = map (fun x => if py.has_space (py.lower x)
                    then quoted (py.lower x) else py.lower x)
        (pd.columns df).

(** Some column's lower-cased name is an entry (trimmed and lower-cased) of
    the reserve-word file. *)
Definition has_reserved_name (lines : list string) (df : DataFrame) : Prop :=
  exists x, In x (pd.columns df) /\ In (py.lower x) (reserve_words lines).

(** A world in which every call succeeds and the target table is empty. *)
Definition sample_env : Env :=
  {| reserve_words_lines := sample_lines;
     today := 739923;
     to_csv := fun _ _ _ => "csv";
     execute_error := fun _ _ => None;
     commit_error := fun _ => None;
     rollback_error := fun _ => None;
     fetched_frame := fun _ => mkDataFrame (sample_index 0) [];
     write_error := fun _ _ => None;
     put_object_error := fun _ _ => None;
     s3_bucket_var := "bucket";
     s3_subdirectory_var := "stage/";
     aws_1 := "AK";
     aws_2 := "SK";
     aws_token := EmptyString;
     aws_role := None |}.

(** The last part of the property as the specification has it: without a
    reserved name, validation only lower-cases the column names. *)
Definition passes_lowercased (lines : list string) (df : DataFrame) : Prop :=
  ~ has_reserved_name lines df ->
  validate_column_names lines df = Ok (lowered_frame df).

(** ** Window boundaries: notions and sample inputs *)

(** The characters of [ts[i:-1]] that [str.isdigit] accepts, in order. *)
Definition interval_digits (i : nat) (ts : string) : string :=
  py.filter_chars py.isdigit (py.slice_to_last i ts).

(** The digits read are a day count [int] accepts: at least one and at
    most 4300 characters, all of them decimal digits. *)
Definition readable_count (digits : string) : bool :=
  negb (String.eqb digits EmptyString)
  && py.all_chars py.is_decimal digits
  && (String.length digits <=? py.int_max_str_digits)%nat.

(** A boundary whose digits are too many to read. *)
Definition long_boundary : string :=
  "current_date - interval '" +:+ py.zeros 4301 +:+ " day' ".

Definition daily_boundary : string :=
  "current_date  +  '18:00-00'::TIMETZ - interval '1 day'".

(** The first run of decimal digits of a string. *)
Fixpoint drop_to_digit (s : string) : string :=
  match s with
  | EmptyString => EmptyString
  | String c s' => if py.is_decimal c then s else drop_to_digit s'
  end.

Fixpoint take_digits (s : string) : string :=
  match s with
  | EmptyString => EmptyString
  | String c s' =>
      if py.is_decimal c then String c (take_digits s') else EmptyString
  end.

Definition first_digit_run (s : string) : string :=
  take_digits (drop_to_digit s).

(** The resolution as the specification words it: a string with both
    "interval" and "day" becomes today minus the first run of digits after
    "interval"; any other string is left as it is. *)
Definition specified_boundary (today : Z) (ts : string) : boundary :=
  match py.find "interval" ts, py.find "day" ts with
  | Some i, Some _ =>
      BDate (today
             - py.decimal_value 0
                 (first_digit_run
                    (String.substring i (String.length ts - i) ts)))
  | _, _ => BStr ts
  end.

(** ** The bulk copy: notions and sample inputs *)

(** A world whose warehouse rejects every statement. *)
Definition failing_env : Env :=
  {| reserve_words_lines := sample_lines;
     today := 739923;
     to_csv := fun _ _ _ => "csv";
     execute_error := fun _ _ => Some "syntax error";
     commit_error := fun _ => None;
     rollback_error := fun _ => None;
     fetched_frame := fun _ => mkDataFrame (sample_index 0) [];
     write_error := fun _ _ => None;
     put_object_error := fun _ _ => None;
     s3_bucket_var := "bucket";
     s3_subdirectory_var := "stage/";
     aws_1 := "AK";
     aws_2 := "SK";
     aws_token := EmptyString;
     aws_role := None |}.

(** ** Table creation: notions and sample inputs *)

(** The column names of the create statement. *)
Definition table_columns (data_frame : DataFrame) (index : bool)
  : list string :=
  if index then
    match index_name (df_index data_frame) with
    | Some name =>
        if nonempty name then name :: pd.columns data_frame
        else "index" :: pd.columns data_frame
    | None => "index" :: pd.columns data_frame
    end
  else pd.columns data_frame.

(** The column types of the create statement: the caller's list, or the
    inferred one. *)
Definition resolved_types (data_frame : DataFrame)
  (column_data_types : option (list string)) (index : bool)
  (json_columns : option (list string)) : result (list string) :=
  match column_data_types with
  | None => get_column_data_types data_frame index json_columns
  | Some given => Ok given
  end.

Definition create_table_head (redshift_table_name : string)
  (columns types : list string) : string :=
  "create table " +:+ redshift_table_name
    +:+ " (" +:+ py.join ", " (columns_and_types columns types) +:+ ")".

Definition sort_clause (sort_interleaved : bool) (sortkey : string) : string :=
  if (0 <? String.length sortkey)%nat then
    (if sort_interleaved then " interleaved" else EmptyString)
      +:+ " sortkey(" +:+ sortkey +:+ ")"
  else EmptyString.

(** The three warehouse calls that end [create_redshift_table]. *)
Definition run_create (env : Env) (redshift_table_name query : string)
  : M unit :=
  let! _ :=
    cursor_execute env
      ("drop table if exists " +:+ redshift_table_name +:+ ";") in
  let! _ := cursor_execute env query in
  connect_commit env.

Definition diststyle_message : string :=
  "diststyle must be either 'even' or 'all'".

(** ** Staging upload: notions and sample inputs *)

(** A monadic computation only appends to the trace, and every event it
    appends satisfies [P]. *)
Definition appends {A : Type} (P : Event -> Prop) (m : M A) : Prop :=
  forall tr, exists new, fst (m tr) = tr ++ new /\ Forall P new.

(** An event that is not an upload, or an upload whose options are the
    accepted, non-null options of [kwargs]. *)
Definition forwards (kwargs : gmap string value) (ev : Event) : Prop :=
  match ev with
  | PutObject _ _ _ options => options = filter_kwargs kwargs
  | _ => True
  end.

Definition sample_kwargs : gmap string value :=
  <["ACL" := VStr "private"]>
    (<["CacheControl" := VStr "no-cache"]> (<["Tagging" := VNone]> ∅)).


(** ** Reconciliation, continued: sample inputs *)

(** The sample reference with other values and more rows. *)
Definition other_values_schema : DataFrame :=
  mkDataFrame (sample_index 2)
    [ mkColumn "a" (DFloat F64) [VFloat 1; VFloat 2];
      mkColumn "b" (DInt W64) [VInt 8; VInt 9];
      mkColumn "s" DObject [VStr "r"; VStr "t"] ].

(** A reference with the columns of the sample dataset, the other way
    round. *)
Definition swapped_schema : DataFrame :=
  mkDataFrame (sample_index 1)
    [ mkColumn "z" DObject [VStr "q"]; mkColumn "b" (DInt W64) [VInt 7] ].

(** ** Column-name validation, continued: sample inputs *)

(** Two reserved names, [table] before [select]. *)
Definition doubly_reserved_frame : DataFrame :=
  mkDataFrame (sample_index 1)
    [ mkColumn "Ab" (DInt W64) [VInt 1];
      mkColumn "Table" DObject [VStr "x"];
      mkColumn "SELECT" DObject [VStr "y"] ].

(** ** Call sequences: notions and sample inputs *)

(** The statements the pipeline sends besides the copy statement. *)
Definition drop_statement (redshift_table_name : string) : string :=
  "drop table if exists " +:+ redshift_table_name +:+ ";".


(** The distribution clause [create_redshift_table] emits when it emits
    one. *)
Definition distribution_part (diststyle distkey : string) : string :=
  if nonempty distkey then " distkey(" +:+ distkey +:+ ")"
  else " diststyle " +:+ diststyle.

Definition create_statement (redshift_table_name : string)
  (columns types : list string) (diststyle distkey : string)
  (sort_interleaved : bool) (sortkey : string) : string :=
  create_table_head redshift_table_name columns types
    +:+ distribution_part diststyle distkey
    +:+ sort_clause sort_interleaved sortkey.

(** The options under which [create_redshift_table] gets past its
    diststyle check. *)
Definition distribution_ok (diststyle distkey : string) : Prop :=
  nonempty distkey = true \/ In diststyle ["even"; "all"].

(** The name of the staged file. *)
Definition staged_name (redshift_table_name : string)
  (label_start label_end : boundary) : string :=
  redshift_table_name +:+ "-" +:+ boundary_str label_start +:+ "_"
    +:+ boundary_str label_end +:+ ".csv".

(** The copy statement of a pipeline run. *)
Definition pipeline_copy (env : Env) (redshift_table_name csv_name : string)
  (o : Options) : string :=
  copy_statement env redshift_table_name csv_name (rs_iam_role o)
    (delimiter o) (quotechar o) (dateformat o) (timeformat o) (region o)
    (parameters o).

(** The upload event of [df_to_s3]. *)
Definition upload_event (env : Env) (data_frame : DataFrame)
  (csv_name : string) (index : bool) (delimiter : string)
  (kwargs : gmap string value) : Event :=
  PutObject (s3_bucket_var env) (s3_subdirectory_var env +:+ csv_name)
    (to_csv env data_frame index delimiter) (filter_kwargs kwargs).

(** An event that is not the execution of a statement beginning with
    "drop table" or "create table". *)
Definition harmless (ev : Event) : Prop :=
  match ev with
  | Execute statement =>
      py.startswith "drop table" statement = false
      /\ py.startswith "create table" statement = false
  | _ => True
  end.

(** A world in which no collaborator ever fails. *)
Definition calm (env : Env) : Prop :=
  (forall tr statement, execute_error env tr statement = None)
  /\ (forall tr, commit_error env tr = None)
  /\ (forall tr key, put_object_error env tr key = None).

(** The same world with other credentials bound. *)
Definition with_credentials (env : Env) (key secret : string)
  (role : option string) : Env :=
  {| reserve_words_lines := reserve_words_lines env;
     today := today env;
     to_csv := to_csv env;
     execute_error := execute_error env;
     commit_error := commit_error env;
     rollback_error := rollback_error env;
     fetched_frame := fetched_frame env;
     write_error := write_error env;
     put_object_error := put_object_error env;
     s3_bucket_var := s3_bucket_var env;
     s3_subdirectory_var := s3_subdirectory_var env;
     aws_1 := key;
     aws_2 := secret;
     aws_token := aws_token env;
     aws_role := role |}.

(** Worlds with one collaborator out of order: the commit, the object
    store, the local disk. *)
Definition commit_failing_env : Env :=
  {| reserve_words_lines := sample_lines;
     today := 739923;
     to_csv := fun _ _ _ => "csv";
     execute_error := fun _ _ => None;
     commit_error := fun _ => Some "connection lost";
     rollback_error := fun _ => None;
     fetched_frame := fun _ => mkDataFrame (sample_index 0) [];
     write_error := fun _ _ => None;
     put_object_error := fun _ _ => None;
     s3_bucket_var := "bucket";
     s3_subdirectory_var := "stage/";
     aws_1 := "AK";
     aws_2 := "SK";
     aws_token := EmptyString;
     aws_role := None |}.

Definition store_failing_env : Env :=
  {| reserve_words_lines := sample_lines;
     today := 739923;
     to_csv := fun _ _ _ => "csv";
     execute_error := fun _ _ => None;
     commit_error := fun _ => None;
     rollback_error := fun _ => None;
     fetched_frame := fun _ => mkDataFrame (sample_index 0) [];
     write_error := fun _ _ => Some "disk full";
     put_object_error := fun _ _ => Some "access denied";
     s3_bucket_var := "bucket";
     s3_subdirectory_var := "stage/";
     aws_1 := "AK";
     aws_2 := "SK";
     aws_token := EmptyString;
     aws_role := None |}.

(** A world whose connection is gone: the statement fails and so does
    the rollback. *)
Definition broken_env : Env :=
  {| reserve_words_lines := sample_lines;
     today := 739923;
     to_csv := fun _ _ _ => "csv";
     execute_error := fun _ _ => Some "server closed";
     commit_error := fun _ => Some "connection already closed";
     rollback_error := fun _ => Some "connection already closed";
     fetched_frame := fun _ => mkDataFrame (sample_index 0) [];
     write_error := fun _ _ => None;
     put_object_error := fun _ _ => None;
     s3_bucket_var := "bucket";
     s3_subdirectory_var := "stage/";
     aws_1 := "AK";
     aws_2 := "SK";
     aws_token := EmptyString;
     aws_role := None |}.

(** The re-raise as the specification has it: the caller receives the
    error of the failed copy statement. *)
Definition reraises_as_specified (env : Env) : Prop :=
  forall what,
    execute_error env []
      (copy_statement env "t" "t.csv" EmptyString "," dquote "auto" "auto"
         EmptyString EmptyString) = Some what ->
    snd (s3_to_redshift env "t" "t.csv" EmptyString "," dquote "auto" "auto"
           EmptyString EmptyString [])
    = Raise (ExternalError what).

(** Options that name the structured columns (none) and so let the type
    inference run, and the same in append mode. *)
Definition replace_options : Options :=
  {| rs_iam_role := EmptyString; column_data_types := None; index := false;
     save_local := false; delimiter := ","; quotechar := dquote;
     dateformat := "auto"; timeformat := "auto"; region := EmptyString;
     append := false; diststyle := "even"; distkey := EmptyString;
     sort_interleaved := false; sortkey := EmptyString;
     parameters := EmptyString; json_columns := Some [] |}.

Definition append_options : Options :=
  {| rs_iam_role := EmptyString; column_data_types := None; index := false;
     save_local := false; delimiter := ","; quotechar := dquote;
     dateformat := "auto"; timeformat := "auto"; region := EmptyString;
     append := true; diststyle := "even"; distkey := EmptyString;
     sort_interleaved := false; sortkey := EmptyString;
     parameters := EmptyString; json_columns := Some [] |}.

Definition bad_style_options : Options :=
  {| rs_iam_role := EmptyString; column_data_types := None; index := false;
     save_local := false; delimiter := ","; quotechar := dquote;
     dateformat := "auto"; timeformat := "auto"; region := EmptyString;
     append := false; diststyle := "key"; distkey := EmptyString;
     sort_interleaved := false; sortkey := EmptyString;
     parameters := EmptyString; json_columns := Some [] |}.

(** * Properties of the embedding *)

(** ** Membership and labels *)

Lemma mem_In (x : string) (xs : list string) : py.mem x xs = true <-> In x xs.
Proof.
  unfold py.mem. rewrite existsb_exists. split.
  - intros [y [Hy He]]. apply String.eqb_eq in He. now subst.
  - intros H. exists x. split; [assumption | apply String.eqb_refl].
Qed.

Lemma mem_not_In (x : string) (xs : list string) :
  py.mem x xs = false <-> ~ In x xs.
Proof.
  rewrite <- mem_In. destruct (py.mem x xs); split; congruence.
Qed.

Lemma filter_none {A : Type} (f : A -> bool) (l : list A) :
  (forall x, In x l -> f x = false) -> List.filter f l = [].
Proof.
  induction l as [|a l IH]; simpl; intros H; [reflexivity|].
  rewrite (H a (or_introl eq_refl)). apply IH. intros x Hx. apply H. now right.
Qed.

Lemma filter_label_absent (label : string) (cols : list Column) :
  ~ In label (map col_name cols) ->
  List.filter (pd.has_label label) cols = [].
Proof.
  induction cols as [|a cols IH]; simpl; intros Hn; [reflexivity|].
  unfold pd.has_label at 1.
  destruct (String.eqb_spec (col_name a) label) as [E|E].
  - exfalso. apply Hn. now left.
  - apply IH. intros H. apply Hn. now right.
Qed.

Lemma filter_label_unique (c : Column) (cols : list Column) :
  List.NoDup (map col_name cols) -> In c cols ->
  List.filter (pd.has_label (col_name c)) cols = [c].
Proof.
  induction cols as [|a cols IH]; simpl; intros Hnd Hin; [contradiction|].
  apply NoDup_cons_iff in Hnd as [Ha Hnd].
  unfold pd.has_label at 1.
  destruct Hin as [->|Hin].
  - rewrite String.eqb_refl. f_equal. now apply filter_label_absent.
  - destruct (String.eqb_spec (col_name a) (col_name c)) as [E|E].
    + exfalso. apply Ha. rewrite E. now apply in_map.
    + now apply IH.
Qed.

Lemma series_dtype_of_column (df : DataFrame) (c : Column) :
  List.NoDup (pd.columns df) -> In c (df_columns df) ->
  pd.series_dtype df (col_name c) = Ok (col_dtype c).
Proof.
  intros Hnd Hin. unfold pd.series_dtype.
  now rewrite (filter_label_unique c (df_columns df) Hnd Hin).
Qed.

Lemma NoDup_names_filter (p : Column -> bool) (cols : list Column) :
  List.NoDup (map col_name cols) -> List.NoDup (map col_name (List.filter p cols)).
Proof.
  induction cols as [|a cols IH]; simpl; intros Hnd; [constructor|].
  apply NoDup_cons_iff in Hnd as [Ha Hnd].
  destruct (p a); simpl; [|now apply IH].
  constructor; [|now apply IH].
  intros H. apply Ha. apply in_map_iff in H as [c [Hc Hin]].
  apply filter_In in Hin as [Hin _]. rewrite <- Hc. now apply in_map.
Qed.

(** ** Reconciliation *)

Lemma drop_unknown_columns (raw_df schema_df : DataFrame) :
  pd.drop raw_df
    (List.filter (fun n => negb (py.mem n (pd.columns schema_df)))
       (pd.columns raw_df))
  = Ok (mkDataFrame (df_index raw_df) (kept_columns raw_df schema_df)).
Proof.
  unfold pd.drop.
  set (labels := List.filter _ (pd.columns raw_df)).
  assert (Hnone : List.filter
                    (fun l => negb (py.mem l (pd.columns raw_df))) labels = []).
  { apply filter_none. intros x Hx.
    unfold labels in Hx. apply filter_In in Hx as [Hx _].
    apply mem_In in Hx. now rewrite Hx. }
  rewrite Hnone. do 2 f_equal. unfold kept_columns.
  apply filter_ext_in. intros c Hc.
  destruct (py.mem (col_name c) (pd.columns schema_df)) eqn:Hs.
  - apply negb_true_iff. apply mem_not_In. intros H.
    unfold labels in H. apply filter_In in H as [_ H].
    rewrite Hs in H. discriminate.
  - apply negb_false_iff. apply mem_In. unfold labels.
    apply filter_In. split; [now apply in_map | now rewrite Hs].
Qed.

Lemma add_missing_fills (schema_df : DataFrame) (cs : list Column) :
  List.NoDup (pd.columns schema_df) ->
  incl cs (df_columns schema_df) ->
  List.NoDup (map col_name cs) ->
  forall cur : DataFrame,
    add_missing schema_df (map col_name cs) cur
    = Ok (mkDataFrame (df_index cur)
            (df_columns cur
               ++ filled_columns (pd.nrows cur) (pd.columns cur) cs)).
Proof.
  intros Hschema. induction cs as [|c cs IH]; intros Hincl Hnd cur.
  - destruct cur as [idx cols]. simpl. unfold filled_columns. simpl.
    now rewrite app_nil_r.
  - apply NoDup_cons_iff in Hnd as [Hc Hnd].
    assert (Hincl' : incl cs (df_columns schema_df)).
    { intros x Hx. apply Hincl. now right. }
    simpl. unfold filled_columns. simpl.
    destruct (py.mem (col_name c) (pd.columns cur)) eqn:Hm; simpl.
    + now rewrite (IH Hincl' Hnd cur).
    + rewrite (series_dtype_of_column schema_df c Hschema
                 (Hincl c (or_introl eq_refl))). simpl.
      unfold pd.setitem_scalar. rewrite Hm.
      rewrite (IH Hincl' Hnd). simpl. f_equal. f_equal.
      rewrite <- app_assoc. simpl. f_equal. f_equal.
      unfold filled_columns, pd.nrows. simpl. f_equal.
      apply filter_ext_in. intros x Hx. f_equal.
      unfold pd.columns. simpl. rewrite map_app. simpl.
      destruct (py.mem (col_name x) (map col_name (df_columns cur))) eqn:Hx'.
      * apply mem_In. apply in_or_app. left. now apply mem_In.
      * apply mem_not_In. intros H. apply in_app_or in H as [H|[H|[]]].
        -- apply mem_In in H. congruence.
        -- apply Hc. rewrite H. now apply in_map.
Qed.

Lemma select_by_names (cols : list Column) (labels : list string) :
  List.NoDup (map col_name cols) ->
  incl labels (map col_name cols) ->
  exists out,
    pd.select cols labels = Ok out
    /\ map col_name out = labels
    /\ incl out cols
    /\ (forall c, In c cols -> In (col_name c) labels -> In c out).
Proof.
  intros Hnd. induction labels as [|l ls IH]; intros Hincl.
  - exists []. simpl. repeat split; try easy.
  - destruct IH as [out [Hsel [Hnames [Hsub Hall]]]].
    { intros x Hx. apply Hincl. now right. }
    assert (Hl : In l (map col_name cols)) by (apply Hincl; now left).
    apply in_map_iff in Hl as [c [Hc Hin]]. subst l.
    exists (c :: out). simpl.
    rewrite (filter_label_unique c cols Hnd Hin), Hsel. simpl.
    repeat split.
    + now rewrite Hnames.
    + intros x [<-|Hx]; [assumption | now apply Hsub].
    + intros x Hx [E|Hx'].
      * left. pose proof (filter_label_unique x cols Hnd Hx) as Hu.
        rewrite <- E in Hu. rewrite (filter_label_unique c cols Hnd Hin) in Hu.
        congruence.
      * right. now apply Hall.
Qed.

(** What [invalidate_to_schema] computes for a schema with distinct column
    names and at least one row, before the final selection: the surviving
    columns followed by the filled ones. *)
Lemma reconcile_steps (raw_df schema_df : DataFrame) :
  List.NoDup (pd.columns schema_df) ->
  pd.nrows schema_df <> 0%nat ->
  invalidate_to_schema raw_df (Some schema_df)
  = pd.getitem_labels
      (mkDataFrame (df_index raw_df)
         (kept_columns raw_df schema_df
            ++ filled_columns (pd.nrows raw_df)
                 (map col_name (kept_columns raw_df schema_df))
                 (df_columns schema_df)))
      (pd.columns schema_df).
Proof.
  intros Hnd Hrows. unfold invalidate_to_schema.
  destruct (Nat.eqb_spec (pd.nrows schema_df) 0) as [E|_]; [contradiction|].
  rewrite drop_unknown_columns. simpl.
  unfold pd.columns at 1.
  rewrite (add_missing_fills schema_df (df_columns schema_df) Hnd
             (incl_refl _) Hnd).
  reflexivity.
Qed.

Lemma filled_names (n : nat) (present : list string) (cs : list Column) :
  map col_name (filled_columns n present cs)
  = List.filter (fun l => negb (py.mem l present)) (map col_name cs).
Proof.
  unfold filled_columns. induction cs as [|c cs IH]; simpl; [reflexivity|].
  destruct (py.mem (col_name c) present); simpl; now rewrite IH.
Qed.

Lemma reconciled_names_NoDup (raw_df schema_df : DataFrame) (n : nat) :
  List.NoDup (pd.columns raw_df) ->
  List.NoDup (pd.columns schema_df) ->
  List.NoDup
    (map col_name
       (kept_columns raw_df schema_df
          ++ filled_columns n (map col_name (kept_columns raw_df schema_df))
               (df_columns schema_df))).
Proof.
  intros Hraw Hschema. rewrite map_app, filled_names.
  apply List.NoDup_app.
  - now apply NoDup_names_filter.
  - now apply List.NoDup_filter.
  - intros a Ha Hb. apply filter_In in Hb as [_ Hb].
    apply negb_true_iff, mem_not_In in Hb. contradiction.
Qed.

Lemma reconciled_names_cover (raw_df schema_df : DataFrame) (n : nat) :
  incl (pd.columns schema_df)
    (map col_name
       (kept_columns raw_df schema_df
          ++ filled_columns n (map col_name (kept_columns raw_df schema_df))
               (df_columns schema_df))).
Proof.
  intros l Hl. rewrite map_app, filled_names. apply in_or_app.
  destruct (py.mem l (map col_name (kept_columns raw_df schema_df))) eqn:Hm.
  - left. now apply mem_In.
  - right. apply filter_In. split; [assumption | now rewrite Hm].
Qed.

(** Without a schema, or with a schema that has no rows, the incoming
    frame is returned as it is. *)
Lemma invalidate_to_schema_no_rows (raw_df : DataFrame)
  (schema_df : option DataFrame) :
  match schema_df with
  | None => True
  | Some schema_df => pd.nrows schema_df = 0%nat
  end ->
  invalidate_to_schema raw_df schema_df = Ok raw_df.
Proof.
  destruct schema_df as [schema_df|]; simpl; [|reflexivity].
  now intros ->.
Qed.

(** The defaults of [get_defaults], type by type. *)
Lemma get_defaults_table (d : dtype) :
  get_defaults d
  = match d with
    | DObject => VStr "na"
    | DBool => VBool false
    | DFloat F64 => VFloat 0
    | _ => VInt 0
    end.
Proof.
  destruct d as [w|w|w| | | | | ]; try destruct w; reflexivity.
Qed.

(** C1 (amended): for every incoming dataset and every reference schema
    with at least one row, both with distinct column names, reconciliation
    returns a dataset whose column names, in order, are exactly the
    reference's; the row count is that of the incoming dataset, every
    incoming column whose name is in the reference is in the result as it
    was, and every column of the result has one value per row if the
    incoming columns had. *)
Theorem invalidate_to_schema_shape (raw_df schema_df : DataFrame) :
  List.NoDup (pd.columns raw_df) ->
  List.NoDup (pd.columns schema_df) ->
  pd.nrows schema_df <> 0%nat ->
  exists out,
    invalidate_to_schema raw_df (Some schema_df) = Ok out
    /\ pd.columns out = pd.columns schema_df
    /\ pd.nrows out = pd.nrows raw_df
    /\ (forall c, In c (df_columns raw_df) ->
                  In (col_name c) (pd.columns schema_df) ->
                  In c (df_columns out))
    /\ (Forall (column_has_rows (pd.nrows raw_df)) (df_columns raw_df) ->
        Forall (column_has_rows (pd.nrows raw_df)) (df_columns out)).
Proof.
  intros Hraw Hschema Hrows.
  rewrite (reconcile_steps raw_df schema_df Hschema Hrows).
  destruct (select_by_names _ (pd.columns schema_df)
              (reconciled_names_NoDup raw_df schema_df (pd.nrows raw_df)
                 Hraw Hschema)
              (reconciled_names_cover raw_df schema_df (pd.nrows raw_df)))
    as [cols [Hsel [Hnames [Hsub Hall]]]].
  exists (mkDataFrame (df_index raw_df) cols).
  unfold pd.getitem_labels. simpl. rewrite Hsel. simpl.
  repeat split; try assumption.
  - intros c Hc Hname. apply Hall; [|assumption].
    apply in_or_app. left. unfold kept_columns. apply filter_In.
    split; [assumption | now apply mem_In].
  - intros Hlen. apply List.Forall_forall. intros c Hc.
    apply Hsub, in_app_or in Hc as [Hc|Hc].
    + apply filter_In in Hc as [Hc _].
      now apply (proj1 (List.Forall_forall _ _) Hlen).
    + unfold filled_columns in Hc. apply in_map_iff in Hc as [s [<- _]].
      unfold column_has_rows. simpl. apply repeat_length.
Qed.

Ltac names_distinct :=
  repeat (constructor; [simpl; intuition discriminate|]); constructor.

Lemma invalidate_to_schema_shape_witness :
  exists out,
    invalidate_to_schema sample_raw (Some sample_schema) = Ok out
    /\ pd.columns out = pd.columns sample_schema
    /\ pd.nrows out = pd.nrows sample_raw
    /\ (forall c, In c (df_columns sample_raw) ->
                  In (col_name c) (pd.columns sample_schema) ->
                  In c (df_columns out))
    /\ (Forall (column_has_rows (pd.nrows sample_raw)) (df_columns sample_raw) ->
        Forall (column_has_rows (pd.nrows sample_raw)) (df_columns out)).
Proof.
  apply (invalidate_to_schema_shape sample_raw sample_schema).
  - names_distinct.
  - names_distinct.
  - simpl. discriminate.
Defined.

(** C1 (as stated) fails: for a reference schema with a column and no row
    the incoming dataset comes back unchanged, with its own columns. *)
Lemma invalidate_to_schema_shape_counterexample :
  ~ shape_as_specified sample_raw schema_without_rows.
Proof.
  intros H. destruct H as [out [Hout [Hcols _]]].
  - simpl. discriminate.
  - simpl in Hout. injection Hout as <-. simpl in Hcols. discriminate.
Qed.

(** C9 (amended): when the reference schema has at least one row (and
    both datasets have distinct column names), every column of the
    reference that the incoming dataset lacks is in the result, holding
    in every row the default of [get_defaults] for the reference column's
    type: "na" for an object (text) column, [False] for a boolean column,
    0.0 for a 64-bit float column, and the integer 0 for every other type,
    which covers the integer columns and the narrower float columns. *)
Theorem missing_columns_filled (raw_df schema_df : DataFrame) (c : Column) :
  List.NoDup (pd.columns raw_df) ->
  List.NoDup (pd.columns schema_df) ->
  pd.nrows schema_df <> 0%nat ->
  In c (df_columns schema_df) ->
  ~ In (col_name c) (pd.columns raw_df) ->
  exists out,
    invalidate_to_schema raw_df (Some schema_df) = Ok out
    /\ In (mkColumn (col_name c)
             (scalar_dtype (get_defaults (col_dtype c)))
             (repeat (get_defaults (col_dtype c)) (pd.nrows raw_df)))
         (df_columns out)
    /\ (forall i, (i < pd.nrows raw_df)%nat ->
                  nth_error (repeat (get_defaults (col_dtype c))
                               (pd.nrows raw_df)) i
                  = Some (get_defaults (col_dtype c)))
    /\ get_defaults (col_dtype c)
       = match col_dtype c with
         | DObject => VStr "na"
         | DBool => VBool false
         | DFloat F64 => VFloat 0
         | _ => VInt 0
         end.
Proof.
  intros Hraw Hschema Hrows Hc Habsent.
  rewrite (reconcile_steps raw_df schema_df Hschema Hrows).
  destruct (select_by_names _ (pd.columns schema_df)
              (reconciled_names_NoDup raw_df schema_df (pd.nrows raw_df)
                 Hraw Hschema)
              (reconciled_names_cover raw_df schema_df (pd.nrows raw_df)))
    as [cols [Hsel [Hnames [Hsub Hall]]]].
  exists (mkDataFrame (df_index raw_df) cols).
  unfold pd.getitem_labels. simpl. rewrite Hsel. simpl.
  repeat split.
  - apply Hall; simpl; [|now apply in_map].
    apply in_or_app. right. unfold filled_columns.
    apply in_map_iff. exists c. split; [reflexivity|].
    apply filter_In. split; [assumption|].
    apply negb_true_iff, mem_not_In. intros H. apply Habsent.
    apply in_map_iff in H as [k [Hk Hin]].
    apply filter_In in Hin as [Hin _]. rewrite <- Hk. now apply in_map.
  - intros i Hi. now apply nth_error_repeat.
  - apply get_defaults_table.
Qed.

Lemma missing_columns_filled_witness :
  exists out,
    invalidate_to_schema sample_raw (Some sample_schema) = Ok out
    /\ In (mkColumn "a" (DFloat F64) [VFloat 0; VFloat 0]) (df_columns out)
    /\ (forall i, (i < 2)%nat ->
                  nth_error [VFloat 0; VFloat 0] i = Some (VFloat 0))
    /\ VFloat 0 = VFloat 0.
Proof.
  apply (missing_columns_filled sample_raw sample_schema
           (mkColumn "a" (DFloat F64) [VFloat 0])).
  - names_distinct.
  - names_distinct.
  - simpl. discriminate.
  - simpl. now left.
  - simpl. intuition discriminate.
Defined.

(** C9 (as stated) fails twice: a 32-bit float column of the reference is
    filled with the integer 0, not with 0.0; and for a reference with a
    column and no row nothing is added at all. *)
Lemma missing_columns_filled_counterexample :
  ~ fill_as_specified sample_raw schema_float32
  /\ ~ fill_as_specified sample_raw schema_without_rows.
Proof.
  split; intros H.
  - destruct (H (mkColumn "a" (DFloat F32) [VFloat 0]))
      as [out [col [Hout [Hin [Hname Hvals]]]]].
    + simpl. now left.
    + simpl. intuition discriminate.
    + vm_compute in Hout. injection Hout as <-. simpl in Hin.
      destruct Hin as [<-|[]]. simpl in Hvals. discriminate.
  - destruct (H (mkColumn "a" DObject []))
      as [out [col [Hout [Hin [Hname Hvals]]]]].
    + simpl. now left.
    + simpl. intuition discriminate.
    + simpl in Hout. injection Hout as <-. simpl in Hin, Hname.
      destruct Hin as [<-|[<-|[]]]; discriminate.
Qed.

(** ** The type mapper *)

(** C5 (amended): for every type tag the mapper returns exactly one of the
    six warehouse keywords, chosen by the first rule that matches the tag's
    name: a name beginning with "int64" gives BIGINT, any other name
    beginning with "int" gives INTEGER, a name beginning with "float" gives
    REAL, a name beginning with "datetime" gives TIMESTAMP, the name "bool"
    gives BOOLEAN, and every other name gives VARCHAR(MAX).  On the column
    types of a dataset: the signed 64-bit integer gives BIGINT, the other
    signed integers INTEGER, floats REAL, datetimes TIMESTAMP, booleans
    BOOLEAN, and all the rest VARCHAR(MAX), the unsigned integers of every
    width among them. *)
Theorem pd_dtype_to_redshift_dtype_rules (tag : string) :
  In (pd_dtype_to_redshift_dtype tag) warehouse_keywords
  /\ (py.startswith "int64" tag = true ->
      pd_dtype_to_redshift_dtype tag = "BIGINT")
  /\ (py.startswith "int64" tag = false -> py.startswith "int" tag = true ->
      pd_dtype_to_redshift_dtype tag = "INTEGER")
  /\ (py.startswith "int64" tag = false -> py.startswith "int" tag = false ->
      py.startswith "float" tag = true ->
      pd_dtype_to_redshift_dtype tag = "REAL")
  /\ (py.startswith "int64" tag = false -> py.startswith "int" tag = false ->
      py.startswith "float" tag = false ->
      py.startswith "datetime" tag = true ->
      pd_dtype_to_redshift_dtype tag = "TIMESTAMP")
  /\ (tag = "bool" -> pd_dtype_to_redshift_dtype tag = "BOOLEAN")
  /\ (py.startswith "int64" tag = false -> py.startswith "int" tag = false ->
      py.startswith "float" tag = false ->
      py.startswith "datetime" tag = false -> tag <> "bool" ->
      pd_dtype_to_redshift_dtype tag = "VARCHAR(MAX)")
  /\ (forall d : dtype,
        tag = dtype_name d ->
        pd_dtype_to_redshift_dtype tag
        = match d with
          | DInt W64 => "BIGINT"
          | DInt _ => "INTEGER"
          | DFloat _ => "REAL"
          | DDatetime64 => "TIMESTAMP"
          | DBool => "BOOLEAN"
          | _ => "VARCHAR(MAX)"
          end).
Proof.
  unfold pd_dtype_to_redshift_dtype, warehouse_keywords.
  repeat split.
  - destruct (py.startswith "int64" tag); [simpl; tauto|].
    destruct (py.startswith "int" tag); [simpl; tauto|].
    destruct (py.startswith "float" tag); [simpl; tauto|].
    destruct (py.startswith "datetime" tag); [simpl; tauto|].
    destruct (String.eqb tag "bool"); simpl; tauto.
  - now intros ->.
  - now intros -> ->.
  - now intros -> -> ->.
  - now intros -> -> -> ->.
  - now intros ->.
  - intros -> -> -> -> Hb.
    now destruct (String.eqb_spec tag "bool").
  - intros d ->.
    destruct d as [w|w|w| | | | | ]; try destruct w; reflexivity.
Qed.

Lemma pd_dtype_to_redshift_dtype_rules_witness :
  pd_dtype_to_redshift_dtype "int32" = "INTEGER"
  /\ pd_dtype_to_redshift_dtype "uint8" = "VARCHAR(MAX)".
Proof.
  split.
  - apply (pd_dtype_to_redshift_dtype_rules "int32"); reflexivity.
  - apply (pd_dtype_to_redshift_dtype_rules "uint8");
      [reflexivity | reflexivity | reflexivity | reflexivity | discriminate].
Defined.

(** C5 (as stated) fails: the tag of an unsigned 8-bit integer column,
    "uint8", is an integer tag and is mapped to VARCHAR(MAX). *)
Lemma pd_dtype_to_redshift_dtype_counterexample :
  dtype_name (DUInt W8) = "uint8"
  /\ pd_dtype_to_redshift_dtype (dtype_name (DUInt W8)) = "VARCHAR(MAX)"
  /\ pd_dtype_to_redshift_dtype (dtype_name (DUInt W8))
     <> specified_keyword (DUInt W8).
Proof.
  repeat split. discriminate.
Qed.

(** ** Column-type inference *)

Lemma column_type_list_some (names : list string) (cols : list Column) :
  column_type_list (Some names) cols
  = Ok (map (fun c => if py.mem (col_name c) names then "SUPER"
                      else pd_dtype_to_redshift_dtype
                             (dtype_name (col_dtype c)))
          cols).
Proof.
  induction cols as [|c cols IH]; simpl; [reflexivity|].
  rewrite IH. now destruct (py.mem (col_name c) names).
Qed.

Lemma column_type_list_none (c : Column) (cols : list Column) :
  column_type_list None (c :: cols)
  = Raise (TypeError "argument of type 'NoneType' is not iterable").
Proof. reflexivity. Qed.

(** C2: with a list of structured columns the inference returns one
    keyword per column, SUPER for the listed names and the mapped keyword
    for the others (preceded by the index's keyword when the index is
    materialized); with no list at all, which is the default of every
    caller, it raises [TypeError] on a dataset that has a column. *)
Theorem get_column_data_types_without_json_columns :
  (forall data_frame index names,
      get_column_data_types data_frame index (Some names)
      = Ok (inferred_types data_frame index names))
  /\ get_column_data_types sample_raw false None
     = Raise (TypeError "argument of type 'NoneType' is not iterable").
Proof.
  split; [|reflexivity].
  intros data_frame index names. unfold get_column_data_types, inferred_types.
  rewrite column_type_list_some. now destruct index.
Qed.

(** ** Column-name validation *)

Lemma set_columns_lower (df : DataFrame) :
  pd.set_columns df (map py.lower (pd.columns df)) = lowered_frame df.
Proof.
  unfold pd.set_columns, lowered_frame, pd.columns. f_equal.
  induction (df_columns df) as [|c cols IH]; simpl; [reflexivity|].
  now rewrite IH.
Qed.

Lemma lowered_columns (df : DataFrame) :
  pd.columns (lowered_frame df) = map py.lower (pd.columns df).
Proof.
  unfold pd.columns, lowered_frame. simpl. rewrite !map_map. reflexivity.
Qed.

Lemma quoted_columns (df : DataFrame) :
  pd.columns (quoted_frame df) = map quoted (map py.lower (pd.columns df)).
Proof.
  unfold pd.columns, quoted_frame. simpl. rewrite !map_map. reflexivity.
Qed.

Lemma check_reserved_cases (rrwords cols : list string) :
  (check_reserved rrwords cols = Ok tt
   /\ forall col, In col cols -> ~ In col rrwords)
  \/ (exists col, In col cols /\ In col rrwords
                  /\ check_reserved rrwords cols
                     = Raise (ValueError (reserve_message col))).
Proof.
  induction cols as [|c cols IH]; simpl.
  - left. split; [reflexivity | intros col []].
  - destruct (py.mem c rrwords) eqn:Hm.
    + right. exists c. apply mem_In in Hm. repeat split; auto.
    + apply mem_not_In in Hm. destruct IH as [[Hok Hall]|[col [Hin [Hr He]]]].
      * left. split; [assumption|]. intros col [<-|Hc]; auto.
      * right. exists col. repeat split; auto.
Qed.

Lemma there_are_spaces_existsb (names : list string) :
  (0 <? length (List.filter py.has_space names))%nat
  = existsb py.has_space names.
Proof.
  induction names as [|n names IH]; simpl; [reflexivity|].
  destruct (py.has_space n); simpl; [reflexivity | exact IH].
Qed.

Lemma dict_get_quoted (names : list string) (n : string) :
  pd.dict_get (map (fun x => (x, quoted x)) names) n
  = if py.mem n names then Some (quoted n) else None.
Proof.
  induction names as [|k names IH]; simpl; [reflexivity|].
  rewrite IH. destruct (py.mem n names); simpl.
  - now rewrite orb_true_r.
  - rewrite orb_false_r, (String.eqb_sym n k).
    destruct (String.eqb_spec k n) as [->|]; reflexivity.
Qed.

Lemma rename_all_quoted (df : DataFrame) :
  pd.rename df (map (fun x => (x, quoted x)) (pd.columns df))
  = mkDataFrame (df_index df)
      (map (fun c => pd.set_name c (quoted (col_name c))) (df_columns df)).
Proof.
  unfold pd.rename. f_equal. apply map_ext_in. intros c Hc.
  rewrite dict_get_quoted.
  assert (Hm : py.mem (col_name c) (pd.columns df) = true).
  { apply mem_In. now apply in_map. }
  now rewrite Hm.
Qed.

(** What [validate_column_names] returns, in full. *)
Lemma validate_column_names_cases (lines : list string) (df : DataFrame) :
  (validate_column_names lines df
   = Ok (if existsb py.has_space (map py.lower (pd.columns df))
         then quoted_frame df else lowered_frame df)
   /\ forall x, In x (pd.columns df) ->
                ~ In (py.lower x) (reserve_words lines))
  \/ (exists x, In x (pd.columns df)
                /\ In (py.lower x) (reserve_words lines)
                /\ validate_column_names lines df
                   = Raise (ValueError (reserve_message (py.lower x)))).
Proof.
  unfold validate_column_names. fold (reserve_words lines).
  rewrite set_columns_lower, lowered_columns.
  destruct (check_reserved_cases (reserve_words lines)
              (map py.lower (pd.columns df)))
    as [[Hok Hall]|[col [Hin [Hr He]]]].
  - left. split.
    + rewrite Hok. simpl. rewrite there_are_spaces_existsb.
      destruct (existsb py.has_space (map py.lower (pd.columns df)));
        [|reflexivity].
      rewrite <- lowered_columns, rename_all_quoted. f_equal.
      unfold quoted_frame, lowered_frame. simpl. f_equal.
      rewrite map_map. reflexivity.
    + intros x Hx. apply Hall. now apply in_map.
  - right. apply in_map_iff in Hin as [x [<- Hx]].
    exists x. repeat split; auto. now rewrite He.
Qed.

(** C3 (amended): after a validation that succeeds, if some lower-cased
    column name contains whitespace then every column is renamed to the
    double-quoted form of its lower-cased name, the names without
    whitespace too; if none does, every column keeps its lower-cased name
    unquoted.  Index, column types and values are untouched. *)
Theorem validate_column_names_quoting (lines : list string)
  (df out : DataFrame) :
  validate_column_names lines df = Ok out ->
  pd.columns out
  = (if existsb py.has_space (map py.lower (pd.columns df))
     then map quoted (map py.lower (pd.columns df))
     else map py.lower (pd.columns df))
  /\ df_index out = df_index df
  /\ map col_dtype (df_columns out) = map col_dtype (df_columns df)
  /\ map col_values (df_columns out) = map col_values (df_columns df).
Proof.
  intros Hout.
  destruct (validate_column_names_cases lines df)
    as [[Hok _]|[x [_ [_ He]]]]; [|congruence].
  rewrite Hok in Hout. injection Hout as <-.
  destruct (existsb py.has_space (map py.lower (pd.columns df))).
  - rewrite quoted_columns. unfold quoted_frame. simpl.
    rewrite !map_map. simpl. repeat split.
  - rewrite lowered_columns. unfold lowered_frame. simpl.
    rewrite !map_map. simpl. repeat split.
Qed.

Lemma validate_column_names_quoting_witness :
  pd.columns (quoted_frame spaced_frame)
  = [quoted "a b"; quoted "c"]
  /\ df_index (quoted_frame spaced_frame) = df_index spaced_frame
  /\ map col_dtype (df_columns (quoted_frame spaced_frame))
     = map col_dtype (df_columns spaced_frame)
  /\ map col_values (df_columns (quoted_frame spaced_frame))
     = map col_values (df_columns spaced_frame).
Proof.
  apply (validate_column_names_quoting sample_lines spaced_frame
           (quoted_frame spaced_frame)).
  reflexivity.
Defined.

(** C3 (as stated) fails: with the columns "A b" and "C", the second
    name has no whitespace and still comes out quoted. *)
Lemma validate_column_names_quoting_counterexample :
  ~ quoting_as_specified sample_lines spaced_frame.
Proof.
  intros H. specialize (H (quoted_frame spaced_frame) eq_refl).
  vm_compute in H. discriminate.
Qed.

Lemma validate_raises_iff_reserved (lines : list string) (df : DataFrame) :
  (exists msg, validate_column_names lines df = Raise (ValueError msg))
  <-> has_reserved_name lines df.
Proof.
  destruct (validate_column_names_cases lines df)
    as [[Hok Hall]|[x [Hx [Hr He]]]]; split.
  - intros [msg Hmsg]. congruence.
  - intros [x [Hx Hr]]. exfalso. now apply (Hall x).
  - intros _. now exists x.
  - intros _. now exists (reserve_message (py.lower x)).
Qed.

(** C8 (amended): validation raises the reserved-word error (a
    [ValueError]) if and only if some lower-cased column name equals an
    entry of the reserve-word list, and it raises nothing else; in the
    pipeline that failure comes first, with no call made on the warehouse,
    the object store or the file system; a dataset with no reserved name
    and no whitespace in its lower-cased names comes back unchanged except
    for the lower-casing of its column names. *)
Theorem reserved_word_rejection (env : Env) (data_frame : DataFrame)
  (redshift_table_name ts_start ts_end : string) (o : Options)
  (kwargs : gmap string value) :
  ((exists msg,
       validate_column_names (reserve_words_lines env) data_frame
       = Raise (ValueError msg))
   <-> has_reserved_name (reserve_words_lines env) data_frame)
  /\ (forall e,
         validate_column_names (reserve_words_lines env) data_frame = Raise e ->
         exists msg, e = ValueError msg)
  /\ (has_reserved_name (reserve_words_lines env) data_frame ->
      forall tr,
      exists msg,
        pandas_to_redshift env data_frame redshift_table_name ts_start ts_end
          o kwargs tr
        = (tr, Raise (ValueError msg)))
  /\ (~ has_reserved_name (reserve_words_lines env) data_frame ->
      existsb py.has_space (map py.lower (pd.columns data_frame)) = false ->
      validate_column_names (reserve_words_lines env) data_frame
      = Ok (lowered_frame data_frame)).
Proof.
  split; [apply validate_raises_iff_reserved|].
  destruct (validate_column_names_cases (reserve_words_lines env) data_frame)
    as [[Hok Hall]|[x [Hx [Hr He]]]].
  - repeat split.
    + intros e He. congruence.
    + intros [x [Hx Hr]]. exfalso. now apply (Hall x).
    + intros _ Hspace. now rewrite Hok, Hspace.
  - repeat split.
    + intros e He'. rewrite He in He'. injection He' as <-. eauto.
    + intros _ tr. exists (reserve_message (py.lower x)).
      unfold pandas_to_redshift, mbind, lift. now rewrite He.
    + intros Hno. exfalso. apply Hno. now exists x.
Qed.

Lemma reserved_word_rejection_witness :
  (exists msg,
      pandas_to_redshift sample_env reserved_frame "t" "2020-01-01"
        "2020-01-02" default_options ∅ []
      = ([], Raise (ValueError msg)))
  /\ validate_column_names (reserve_words_lines sample_env) plain_frame
     = Ok (lowered_frame plain_frame).
Proof.
  split.
  - apply (reserved_word_rejection sample_env reserved_frame "t" "2020-01-01"
             "2020-01-02" default_options ∅).
    exists "Table". split.
    + simpl. right. now left.
    + vm_compute. right. now left.
  - apply (reserved_word_rejection sample_env plain_frame "t" "2020-01-01"
             "2020-01-02" default_options ∅); [|reflexivity].
    intros [x [Hx Hr]]. simpl in Hx.
    destruct Hx as [<-|[<-|[]]]; vm_compute in Hr; intuition discriminate.
Defined.

(** C8 (as stated) fails in its last part: the dataset with the columns
    "A b" and "C" has no reserved name, and validation returns it with the
    names ["a b"] and ["c"] in double quotes, not merely lower-cased. *)
Lemma reserved_word_rejection_counterexample :
  ~ passes_lowercased sample_lines spaced_frame.
Proof.
  intros H.
  assert (Hno : ~ has_reserved_name sample_lines spaced_frame).
  { intros [x [Hx Hr]]. simpl in Hx.
    destruct Hx as [<-|[<-|[]]]; vm_compute in Hr; intuition discriminate. }
  specialize (H Hno). vm_compute in H. discriminate.
Qed.

(** ** Window boundaries *)

Lemma digit_value_range (c : ascii) :
  py.is_decimal c = true -> 0 <= py.digit_value c <= 9.
Proof.
  unfold py.is_decimal, py.between, py.digit_value.
  intros H. apply andb_true_iff in H as [H1 H2].
  apply N.leb_le in H1, H2. lia.
Qed.

Lemma decimal_value_nonneg (s : string) :
  forall acc, py.all_chars py.is_decimal s = true -> 0 <= acc ->
              0 <= py.decimal_value acc s.
Proof.
  induction s as [|c s IH]; simpl; intros acc Hall Hacc; [assumption|].
  apply andb_true_iff in Hall as [Hc Hall].
  apply IH; [assumption|]. pose proof (digit_value_range c Hc). lia.
Qed.

Lemma leading_digits_all (s : string) :
  py.all_chars py.is_decimal s = true ->
  py.leading_digits s = String.length s.
Proof.
  induction s as [|c s IH]; simpl; [reflexivity|].
  intros H. apply andb_true_iff in H as [Hc Hs]. rewrite Hc. now rewrite IH.
Qed.

Lemma int_of_readable (s : string) :
  readable_count s = true -> py.int s = Ok (py.decimal_value 0 s).
Proof.
  unfold readable_count. intros H.
  apply andb_true_iff in H as [H Hlen]. apply andb_true_iff in H as [Hne Hdec].
  unfold py.int. rewrite (leading_digits_all s Hdec).
  apply Nat.leb_le in Hlen.
  destruct (Nat.ltb_spec py.int_max_str_digits (String.length s)); [lia|].
  rewrite Hdec. destruct s; [discriminate | reflexivity].
Qed.

Lemma int_of_unreadable (s : string) :
  readable_count s = false -> exists msg, py.int s = Raise (ValueError msg).
Proof.
  unfold readable_count, py.int. intros H.
  destruct (py.int_max_str_digits <? py.leading_digits s)%nat eqn:Hcap;
    [eauto|].
  destruct s as [|c s]; [unfold py.invalid_literal; eauto|].
  destruct (py.all_chars py.is_decimal (String c s)) eqn:Hdec;
    [|unfold py.invalid_literal; eauto].
  rewrite (leading_digits_all _ Hdec) in Hcap.
  apply Nat.ltb_ge, Nat.leb_le in Hcap. rewrite Hcap in H. discriminate.
Qed.

Lemma readable_count_decimal (s : string) :
  readable_count s = true -> py.all_chars py.is_decimal s = true.
Proof.
  unfold readable_count. intros H.
  apply andb_true_iff in H as [H _]. now apply andb_true_iff in H as [_ H].
Qed.

(** Subtracting a day count from a date. *)
Lemma add_days_back (today n : Z) :
  0 <= n ->
  (n <= 999999999 -> 0 < today - n <= datetime.MAXORDINAL ->
   datetime.add_days today (- n) = Ok (today - n))
  /\ (999999999 < n \/ ~ (0 < today - n <= datetime.MAXORDINAL) ->
      exists msg, datetime.add_days today (- n) = Raise (OverflowError msg)).
Proof.
  intros Hn. unfold datetime.add_days.
  replace (today + - n) with (today - n) by lia. split.
  - intros Hmax Hrange.
    replace ((- n <? -2147483648) || (2147483647 <? - n)) with false
      by (symmetry; apply orb_false_iff; split; apply Z.ltb_ge; lia).
    replace (999999999 <? Z.abs (- n)) with false
      by (symmetry; apply Z.ltb_ge; lia).
    replace ((0 <? today - n) && (today - n <=? datetime.MAXORDINAL))
      with true; [reflexivity|].
    symmetry. apply andb_true_iff. split; [apply Z.ltb_lt | apply Z.leb_le]; lia.
  - intros Hbad.
    destruct ((- n <? -2147483648) || (2147483647 <? - n)); [eauto|].
    destruct (Z.ltb_spec 999999999 (Z.abs (- n))); [eauto|].
    destruct ((0 <? today - n) && (today - n <=? datetime.MAXORDINAL))
      eqn:Hr; [|eauto].
    apply andb_true_iff in Hr as [H1 H2].
    apply Z.ltb_lt in H1. apply Z.leb_le in H2.
    exfalso. destruct Hbad as [Hbig|Hout]; [lia | apply Hout; lia].
Qed.

(** C4 (amended): a boundary string that does not contain "current_date"
    passes through unchanged, whatever else it contains, and a string that
    contains it never does.  Such a string is evaluated to today's date
    when it lacks "interval" or lacks "day".  Otherwise the digits found
    from the first "interval" up to, and not including, the last character
    of the string are joined into a day count N, and the result is today
    minus N days when there are between 1 and 4300 of them, all decimal
    digits, N is at most 999999999 and today minus N is a date of the
    calendar; when the digits cannot be read (none found, a superscript
    digit among them, more than 4300 of them) the call raises
    [ValueError], and when N is above 999999999 or the date is out of the
    calendar it raises [OverflowError]. *)
Theorem date_converter_cases (today : Z) (ts : string) :
  (py.contains "current_date" ts = false ->
   _date_converter today ts = Ok (BStr ts))
  /\ (py.contains "current_date" ts = true ->
      forall s, _date_converter today ts <> Ok (BStr s))
  /\ (py.contains "current_date" ts = true ->
      py.find "interval" ts = None \/ py.find "day" ts = None ->
      _date_converter today ts = Ok (BDate today))
  /\ (forall i j,
         py.contains "current_date" ts = true ->
         py.find "interval" ts = Some i ->
         py.find "day" ts = Some j ->
         (readable_count (interval_digits i ts) = true ->
          py.decimal_value 0 (interval_digits i ts) <= 999999999 ->
          0 < today - py.decimal_value 0 (interval_digits i ts)
            <= datetime.MAXORDINAL ->
          _date_converter today ts
          = Ok (BDate (today - py.decimal_value 0 (interval_digits i ts))))
         /\ (readable_count (interval_digits i ts) = false ->
             exists msg, _date_converter today ts = Raise (ValueError msg))
         /\ (readable_count (interval_digits i ts) = true ->
             999999999 < py.decimal_value 0 (interval_digits i ts)
             \/ ~ (0 < today - py.decimal_value 0 (interval_digits i ts)
                     <= datetime.MAXORDINAL) ->
             exists msg,
               _date_converter today ts = Raise (OverflowError msg))).
Proof.
  unfold _date_converter. split; [|split; [|split]].
  - now intros ->.
  - intros -> s.
    destruct (py.find "interval" ts) as [i|]; [|discriminate].
    destruct (py.find "day" ts); [|discriminate].
    destruct (py.int _) as [digit|e]; simpl; [|discriminate].
    destruct (datetime.add_days today (- digit)); simpl; discriminate.
  - intros -> [->| ->]; [reflexivity|].
    now destruct (py.find "interval" ts).
  - intros i j -> -> ->. fold (interval_digits i ts).
    split; [|split].
    + intros Hread Hmax Hrange. rewrite (int_of_readable _ Hread).
      pose proof (decimal_value_nonneg _ 0 (readable_count_decimal _ Hread)
                    (Z.le_refl 0)) as Hpos.
      unfold bind.
      now rewrite (proj1 (add_days_back today _ Hpos) Hmax Hrange).
    + intros Hread. destruct (int_of_unreadable _ Hread) as [msg ->].
      simpl. eauto.
    + intros Hread Hbad. rewrite (int_of_readable _ Hread).
      pose proof (decimal_value_nonneg _ 0 (readable_count_decimal _ Hread)
                    (Z.le_refl 0)) as Hpos.
      unfold bind.
      destruct (proj2 (add_days_back today _ Hpos) Hbad) as [msg ->]. eauto.
Qed.

Lemma date_converter_cases_witness :
  _date_converter 739923 "2020-01-01" = Ok (BStr "2020-01-01")
  /\ _date_converter 739923 "current_date" = Ok (BDate 739923)
  /\ _date_converter 739923 daily_boundary = Ok (BDate 739922)
  /\ (exists msg,
         _date_converter 739923 "current_date of day interval 3"
         = Raise (ValueError msg))
  /\ (exists msg,
         _date_converter 739923 long_boundary = Raise (ValueError msg))
  /\ (exists msg,
         _date_converter 739923 "current_date - interval '739923 day' "
         = Raise (OverflowError msg)).
Proof.
  split; [|split; [|split; [|split; [|split]]]].
  - apply (proj1 (date_converter_cases 739923 "2020-01-01")). reflexivity.
  - apply (proj1 (proj2 (proj2 (date_converter_cases 739923 "current_date"))));
      [reflexivity | left; reflexivity].
  - refine (proj1 (proj2 (proj2 (proj2
              (date_converter_cases 739923 daily_boundary)))
              38%nat 50%nat _ _ _) _ _ _);
      try reflexivity;
      change (py.decimal_value 0 (interval_digits 38 daily_boundary)) with 1;
      unfold datetime.MAXORDINAL; lia.
  - refine (proj1 (proj2 (proj2 (proj2 (proj2
              (date_converter_cases 739923 "current_date of day interval 3")))
              20%nat 16%nat _ _ _)) _); reflexivity.
  - refine (proj1 (proj2 (proj2 (proj2 (proj2
              (date_converter_cases 739923 long_boundary)))
              15%nat 4327%nat _ _ _)) _); vm_compute; reflexivity.
  - refine (proj2 (proj2 (proj2 (proj2 (proj2
              (date_converter_cases 739923
                 "current_date - interval '739923 day' ")))
              15%nat 32%nat _ _ _)) _ _); try reflexivity.
    right.
    change (py.decimal_value 0
              (interval_digits 15 "current_date - interval '739923 day' "))
      with 739923.
    lia.
Defined.

(** C4 (as stated) fails three ways: without "current_date" a string with
    the pattern is not evaluated; with "current_date" and without the
    pattern the string becomes today's date instead of passing through;
    and the day count is made of all the digits after "interval", not of
    the first run. *)
Lemma date_converter_counterexample :
  _date_converter 739923 "interval '3 day'"
    <> Ok (specified_boundary 739923 "interval '3 day'")
  /\ _date_converter 739923 "current_date"
       <> Ok (specified_boundary 739923 "current_date")
  /\ _date_converter 739923
       "current_date - interval '1 day' - interval '2 day'"
       <> Ok (specified_boundary 739923
                "current_date - interval '1 day' - interval '2 day'").
Proof.
  repeat split; vm_compute; discriminate.
Qed.

(** ** The bulk copy *)

(** C6 (amended): when the execution of the bulk-copy statement fails,
    [s3_to_redshift] has made exactly two calls on the warehouse, the
    execute and then a rollback, so no commit for that statement.  The
    error of the execution is what the caller receives when the rollback
    returns normally; when the rollback fails too, the caller receives the
    rollback's error. *)
Theorem copy_failure_rolls_back (env : Env) (redshift_table_name csv_name
  rs_iam_role delimiter quotechar dateformat timeformat region parameters
  what s3_to_sql : string) (tr : list Event) :
  s3_to_sql
  = copy_statement env redshift_table_name csv_name rs_iam_role delimiter
      quotechar dateformat timeformat region parameters ->
  execute_error env tr s3_to_sql = Some what ->
  fst (s3_to_redshift env redshift_table_name csv_name rs_iam_role delimiter
         quotechar dateformat timeformat region parameters tr)
  = tr ++ [Execute s3_to_sql; Rollback]
  /\ ~ In Commit [Execute s3_to_sql; Rollback]
  /\ (rollback_error env (tr ++ [Execute s3_to_sql]) = None ->
      snd (s3_to_redshift env redshift_table_name csv_name rs_iam_role
             delimiter quotechar dateformat timeformat region parameters tr)
      = Raise (ExternalError what))
  /\ (forall later,
         rollback_error env (tr ++ [Execute s3_to_sql]) = Some later ->
         snd (s3_to_redshift env redshift_table_name csv_name rs_iam_role
                delimiter quotechar dateformat timeformat region parameters
                tr)
         = Raise (ExternalError later)).
Proof.
  intros -> Hfail.
  unfold s3_to_redshift, try_except, mbind, cursor_execute, connect_commit,
    connect_rollback, call, raise.
  rewrite Hfail. simpl. repeat split.
  - destruct (rollback_error env _); simpl; now rewrite <- app_assoc.
  - intros [H|[H|[]]]; discriminate.
  - now intros ->.
  - now intros later ->.
Qed.

Lemma copy_failure_rolls_back_witness :
  fst (s3_to_redshift failing_env "t" "t.csv" EmptyString "," dquote "auto"
         "auto" EmptyString EmptyString [])
  = [] ++ [ Execute (copy_statement failing_env "t" "t.csv" EmptyString ","
                       dquote "auto" "auto" EmptyString EmptyString);
            Rollback ]
  /\ snd (s3_to_redshift failing_env "t" "t.csv" EmptyString "," dquote
            "auto" "auto" EmptyString EmptyString [])
     = Raise (ExternalError "syntax error").
Proof.
  destruct (copy_failure_rolls_back failing_env "t" "t.csv" EmptyString ","
              dquote "auto" "auto" EmptyString EmptyString "syntax error" _
              [] eq_refl eq_refl) as [Htrace [_ [Hraise _]]].
  split; [exact Htrace | apply Hraise; reflexivity].
Defined.

(** C6 (as stated) fails: in a world whose connection is gone the
    statement fails, the rollback fails too, and the caller receives the
    rollback's error instead of the statement's. *)
Lemma copy_failure_rolls_back_counterexample :
  ~ reraises_as_specified broken_env.
Proof.
  intros H. specialize (H "server closed" eq_refl).
  vm_compute in H. discriminate.
Qed.

(** ** Table creation *)

Lemma append_assoc (a b c : string) : (a +:+ b) +:+ c = a +:+ (b +:+ c).
Proof.
  induction a as [|x a IH]; [reflexivity|].
  change (String x ((a +:+ b) +:+ c) = String x (a +:+ (b +:+ c))).
  now rewrite IH.
Qed.

Lemma append_empty_r (a : string) : a +:+ EmptyString = a.
Proof.
  induction a as [|x a IH]; [reflexivity|].
  change (String x (a +:+ EmptyString) = String x a).
  now rewrite IH.
Qed.

Lemma run_create_errors (env : Env) (name query : string) (tr : list Event) :
  snd (run_create env name query tr) = Ok tt
  \/ exists what, snd (run_create env name query tr) = Raise (ExternalError what).
Proof.
  unfold run_create, mbind, cursor_execute, connect_commit, call.
  destruct (execute_error env tr _); simpl; [eauto|].
  destruct (execute_error env _ query); simpl; [eauto|].
  destruct (commit_error env _); simpl; eauto.
Qed.

Lemma with_sort_clause (q : string) (sort_interleaved : bool)
  (sortkey : string) :
  (if (0 <? String.length sortkey)%nat then
     (if sort_interleaved then q +:+ " interleaved" else q)
       +:+ " sortkey(" +:+ sortkey +:+ ")"
   else q)
  = q +:+ sort_clause sort_interleaved sortkey.
Proof.
  unfold sort_clause. destruct (0 <? String.length sortkey)%nat.
  - destruct sort_interleaved; [now rewrite append_assoc | reflexivity].
  - now rewrite append_empty_r.
Qed.

(** [create_redshift_table], once the column types are known. *)
Lemma create_redshift_table_steps (env : Env) (data_frame : DataFrame)
  (redshift_table_name : string) (column_data_types : option (list string))
  (index append : bool) (diststyle distkey : string) (sort_interleaved : bool)
  (sortkey : string) (json_columns : option (list string))
  (types : list string) (tr : list Event) :
  resolved_types data_frame column_data_types index json_columns = Ok types ->
  create_redshift_table env data_frame redshift_table_name column_data_types
    index append diststyle distkey sort_interleaved sortkey json_columns tr
  = if nonempty distkey then
      run_create env redshift_table_name
        (create_table_head redshift_table_name
           (table_columns data_frame index) types
           +:+ (" distkey(" +:+ distkey +:+ ")")
           +:+ sort_clause sort_interleaved sortkey) tr
    else if py.mem diststyle ["even"; "all"] then
      run_create env redshift_table_name
        (create_table_head redshift_table_name
           (table_columns data_frame index) types
           +:+ (" diststyle " +:+ diststyle)
           +:+ sort_clause sort_interleaved sortkey) tr
    else (tr, Raise (ValueError diststyle_message)).
Proof.
  intros Htypes. unfold create_redshift_table.
  fold (table_columns data_frame index).
  assert (Hstep :
    (match column_data_types with
     | None => lift (get_column_data_types data_frame index json_columns)
     | Some given => ret given
     end) tr = (tr, Ok types)).
  { unfold resolved_types in Htypes.
    destruct column_data_types; unfold lift, ret; now rewrite Htypes. }
  unfold mbind at 1. rewrite Hstep.
  fold (create_table_head redshift_table_name
          (table_columns data_frame index) types).
  destruct (nonempty distkey); cbn [negb].
  - unfold mbind at 1, ret at 1. cbv beta iota.
    rewrite (with_sort_clause
               (create_table_head redshift_table_name
                  (table_columns data_frame index) types
                  +:+ " distkey(" +:+ distkey +:+ ")")
               sort_interleaved sortkey).
    rewrite append_assoc. reflexivity.
  - destruct (py.mem diststyle ["even"; "all"]); cbn [negb].
    + unfold mbind at 1, ret at 1. cbv beta iota.
      rewrite (with_sort_clause
                 (create_table_head redshift_table_name
                    (table_columns data_frame index) types
                    +:+ " diststyle " +:+ diststyle)
                 sort_interleaved sortkey).
      rewrite append_assoc. reflexivity.
    + reflexivity.
Qed.

Lemma nonempty_true (s : string) : s <> EmptyString -> nonempty s = true.
Proof.
  intros H. unfold nonempty. now destruct (String.eqb_spec s EmptyString).
Qed.

(** The distribution clause, once the column types are at hand.  With
    a distribution key the statement is the head, then [distkey(key)],
    then the sort clause, whatever the diststyle is (it is never looked
    at).  Without a key the call raises the diststyle error, before any
    warehouse call, if and only if the diststyle is neither 'even' nor
    'all', and otherwise the statement is the head, then
    [diststyle <style>], then the sort clause. *)
Theorem distribution_clause (env : Env) (data_frame : DataFrame)
  (redshift_table_name : string) (column_data_types : option (list string))
  (index append : bool) (diststyle distkey : string) (sort_interleaved : bool)
  (sortkey : string) (json_columns : option (list string))
  (types : list string) (tr : list Event) :
  resolved_types data_frame column_data_types index json_columns = Ok types ->
  (distkey <> EmptyString ->
   forall any_style,
     create_redshift_table env data_frame redshift_table_name
       column_data_types index append any_style distkey sort_interleaved
       sortkey json_columns tr
     = run_create env redshift_table_name
         (create_table_head redshift_table_name
            (table_columns data_frame index) types
            +:+ (" distkey(" +:+ distkey +:+ ")")
            +:+ sort_clause sort_interleaved sortkey) tr)
  /\ (distkey = EmptyString -> In diststyle ["even"; "all"] ->
      create_redshift_table env data_frame redshift_table_name
        column_data_types index append diststyle distkey sort_interleaved
        sortkey json_columns tr
      = run_create env redshift_table_name
          (create_table_head redshift_table_name
             (table_columns data_frame index) types
             +:+ (" diststyle " +:+ diststyle)
             +:+ sort_clause sort_interleaved sortkey) tr)
  /\ (distkey = EmptyString -> ~ In diststyle ["even"; "all"] ->
      create_redshift_table env data_frame redshift_table_name
        column_data_types index append diststyle distkey sort_interleaved
        sortkey json_columns tr
      = (tr, Raise (ValueError diststyle_message)))
  /\ (distkey = EmptyString ->
      ((exists msg,
           snd (create_redshift_table env data_frame redshift_table_name
                  column_data_types index append diststyle distkey
                  sort_interleaved sortkey json_columns tr)
           = Raise (ValueError msg))
       <-> ~ In diststyle ["even"; "all"])).
Proof.
  intros Htypes. repeat split.
  - intros Hkey any_style.
    rewrite (create_redshift_table_steps _ _ _ _ _ _ _ _ _ _ _ types _ Htypes).
    now rewrite (nonempty_true distkey Hkey).
  - intros -> Hin.
    rewrite (create_redshift_table_steps _ _ _ _ _ _ _ _ _ _ _ types _ Htypes).
    apply mem_In in Hin. now rewrite Hin.
  - intros -> Hout.
    rewrite (create_redshift_table_steps _ _ _ _ _ _ _ _ _ _ _ types _ Htypes).
    apply mem_not_In in Hout. now rewrite Hout.
  - intros [msg Hmsg] Hin. subst distkey.
    rewrite (create_redshift_table_steps _ _ _ _ _ _ _ _ _ _ _ types _ Htypes)
      in Hmsg.
    apply mem_In in Hin. rewrite Hin in Hmsg. simpl in Hmsg.
    destruct (run_create_errors env redshift_table_name
                (create_table_head redshift_table_name
                   (table_columns data_frame index) types
                   +:+ (" diststyle " +:+ diststyle)
                   +:+ sort_clause sort_interleaved sortkey) tr)
      as [Hok|[what Hext]]; congruence.
  - intros Hout. subst distkey.
    rewrite (create_redshift_table_steps _ _ _ _ _ _ _ _ _ _ _ types _ Htypes).
    apply mem_not_In in Hout. rewrite Hout. simpl. eauto.
Qed.

Lemma distribution_clause_witness :
  create_redshift_table sample_env sample_raw "t"
    (Some ["BIGINT"; "VARCHAR(MAX)"]) false false "bogus" "b" false
    EmptyString None []
  = run_create sample_env "t"
      "create table t (b BIGINT, z VARCHAR(MAX)) distkey(b)" []
  /\ create_redshift_table sample_env sample_raw "t"
       (Some ["BIGINT"; "VARCHAR(MAX)"]) false false "bogus" EmptyString
       false EmptyString None []
     = ([], Raise (ValueError diststyle_message)).
Proof.
  split.
  - apply (proj1 (distribution_clause sample_env sample_raw "t"
                    (Some ["BIGINT"; "VARCHAR(MAX)"]) false false "even" "b"
                    false EmptyString None ["BIGINT"; "VARCHAR(MAX)"] []
                    eq_refl)).
    discriminate.
  - apply (proj1 (proj2 (proj2
             (distribution_clause sample_env sample_raw "t"
                (Some ["BIGINT"; "VARCHAR(MAX)"]) false false "bogus"
                EmptyString false EmptyString None
                ["BIGINT"; "VARCHAR(MAX)"] [] eq_refl)))).
    + reflexivity.
    + simpl. intuition discriminate.
Defined.

(** C7: called as its defaults have it, with neither a list of column
    types nor a list of structured columns, [create_redshift_table] never
    reaches its distribution clause on a dataset that has a column: for
    every diststyle and every distribution key it raises the [TypeError]
    of the type inference, having sent nothing.  So a diststyle that is
    neither 'even' nor 'all' is not answered with the diststyle error, and
    a valid one gets no clause; with the structured columns named, be it
    by an empty list, the same calls raise the diststyle error and emit
    the clause. *)
Theorem create_redshift_table_default_call :
  (forall (env : Env) (idx : Index) (c : Column) (cols : list Column)
          (redshift_table_name : string) (index append : bool)
          (diststyle distkey : string) (sort_interleaved : bool)
          (sortkey : string) (tr : list Event),
      create_redshift_table env (mkDataFrame idx (c :: cols))
        redshift_table_name None index append diststyle distkey
        sort_interleaved sortkey None tr
      = (tr, Raise (TypeError "argument of type 'NoneType' is not iterable")))
  /\ create_redshift_table sample_env sample_raw "t" None false false "bogus"
       EmptyString false EmptyString None []
     = ([], Raise (TypeError "argument of type 'NoneType' is not iterable"))
  /\ create_redshift_table sample_env sample_raw "t" None false false "bogus"
       EmptyString false EmptyString (Some []) []
     = ([], Raise (ValueError diststyle_message))
  /\ fst (create_redshift_table sample_env sample_raw "t" None false false
            "even" EmptyString false EmptyString None [])
     = []
  /\ fst (create_redshift_table sample_env sample_raw "t" None false false
            "even" EmptyString false EmptyString (Some []) [])
     = [ Execute "drop table if exists t;";
         Execute "create table t (b BIGINT, z VARCHAR(MAX)) diststyle even";
         Commit ].
Proof.
  repeat split.
Qed.

(** The create statement of the specification's example: columns [a] of
    a 32-bit integer type and [b] of text, no key, diststyle 'even'. *)
Lemma create_statement_example :
  fst (create_redshift_table sample_env
         (mkDataFrame (sample_index 0)
            [mkColumn "a" (DInt W32) []; mkColumn "b" DObject []])
         "t" None false false "even" EmptyString false EmptyString (Some [])
         [])
  = [ Execute "drop table if exists t;";
      Execute "create table t (a INTEGER, b VARCHAR(MAX)) diststyle even";
      Commit ].
Proof. reflexivity. Qed.

(** ** Staging upload *)

Lemma filter_kwargs_lookup (kwargs : gmap string value) (k : string)
  (v : value) :
  filter_kwargs kwargs !! k = Some v
  <-> kwargs !! k = Some v /\ In k S3_ACCEPTED_KWARGS /\ v <> VNone.
Proof.
  unfold filter_kwargs. rewrite map_lookup_filter_Some.
  unfold accepted_kwarg. simpl fst. simpl snd.
  rewrite andb_true_iff, mem_In, negb_true_iff.
  split; intros [Hk [Hin Hv]]; repeat split; auto.
  - intros ->. discriminate.
  - destruct v; simpl; congruence.
Qed.

Lemma filter_kwargs_idem (kwargs : gmap string value) :
  filter_kwargs (filter_kwargs kwargs) = filter_kwargs kwargs.
Proof.
  unfold filter_kwargs at 1. apply map_filter_id. intros i x H.
  unfold filter_kwargs in H. apply map_lookup_filter_Some in H. tauto.
Qed.

Lemma filter_kwargs_rejects (kwargs : gmap string value) (k : string) :
  ~ In k S3_ACCEPTED_KWARGS -> filter_kwargs kwargs !! k = None.
Proof.
  intros Hk. destruct (filter_kwargs kwargs !! k) as [v|] eqn:E; [|reflexivity].
  apply filter_kwargs_lookup in E. tauto.
Qed.

Lemma appends_ret {A : Type} (P : Event -> Prop) (a : A) : appends P (ret a).
Proof. intros tr. exists []. simpl. now rewrite app_nil_r. Qed.

Lemma appends_raise {A : Type} (P : Event -> Prop) (e : exn) :
  appends P (@raise A e).
Proof. intros tr. exists []. simpl. now rewrite app_nil_r. Qed.

Lemma appends_lift {A : Type} (P : Event -> Prop) (r : result A) :
  appends P (lift r).
Proof. intros tr. exists []. simpl. now rewrite app_nil_r. Qed.

Lemma appends_call (P : Event -> Prop) (ev : Event)
  (outcome : list Event -> option string) :
  P ev -> appends P (call ev outcome).
Proof. intros Hev tr. exists [ev]. simpl. split; [reflexivity | now constructor]. Qed.

Lemma appends_bind {A B : Type} (P : Event -> Prop) (m : M A) (k : A -> M B) :
  appends P m -> (forall a, appends P (k a)) -> appends P (mbind m k).
Proof.
  intros Hm Hk tr. unfold mbind.
  destruct (Hm tr) as [new1 [E1 F1]].
  destruct (m tr) as [tr1 [a|e]]; simpl in E1; subst tr1.
  - destruct (Hk a (tr ++ new1)) as [new2 [E2 F2]].
    exists (new1 ++ new2). rewrite E2, app_assoc. split; [reflexivity|].
    apply Forall_app. now split.
  - exists new1. now split.
Qed.

Lemma appends_try {A : Type} (P : Event -> Prop) (body : M A)
  (handler : exn -> M A) :
  appends P body -> (forall e, appends P (handler e)) ->
  appends P (try_except body handler).
Proof.
  intros Hm Hk tr. unfold try_except.
  destruct (Hm tr) as [new1 [E1 F1]].
  destruct (body tr) as [tr1 [a|e]]; simpl in E1; subst tr1.
  - exists new1. now split.
  - destruct (Hk e (tr ++ new1)) as [new2 [E2 F2]].
    exists (new1 ++ new2). rewrite E2, app_assoc. split; [reflexivity|].
    apply Forall_app. now split.
Qed.

Lemma appends_weaken {A : Type} (P Q : Event -> Prop) (m : M A) :
  (forall ev, P ev -> Q ev) -> appends P m -> appends Q m.
Proof.
  intros Himp Hm tr. destruct (Hm tr) as [new [E F]].
  exists new. split; [assumption|]. revert F. apply List.Forall_impl. exact Himp.
Qed.

Ltac appends_steps :=
  repeat first
    [ apply appends_bind; [|intros ?]
    | apply appends_try; [|intros ?]
    | apply appends_ret
    | apply appends_raise
    | apply appends_lift
    | apply appends_call; exact I ].

Lemma df_to_s3_appends (env : Env) (data_frame : DataFrame)
  (csv_name : string) (index save_local : bool) (delimiter : string)
  (kwargs : gmap string value) :
  appends (forwards kwargs)
    (df_to_s3 env data_frame csv_name index save_local delimiter kwargs).
Proof.
  unfold df_to_s3. apply appends_bind.
  - destruct save_local; appends_steps.
  - intros _. unfold put_object.
    destruct (filter_kwargs kwargs !! "Key"); [apply appends_raise|].
    destruct (filter_kwargs kwargs !! "Body"); [apply appends_raise|].
    apply appends_call. reflexivity.
Qed.

Lemma create_redshift_table_appends (env : Env) (kwargs : gmap string value)
  (data_frame : DataFrame) (name : string) (types : option (list string))
  (index append : bool) (diststyle distkey : string) (interleaved : bool)
  (sortkey : string) (json : option (list string)) :
  appends (forwards kwargs)
    (create_redshift_table env data_frame name types index append diststyle
       distkey interleaved sortkey json).
Proof.
  unfold create_redshift_table, cursor_execute, connect_commit.
  apply appends_bind; [destruct types; appends_steps|]. intros ?.
  apply appends_bind.
  - destruct (negb (nonempty distkey)); [|appends_steps].
    destruct (negb (py.mem diststyle ["even"; "all"])); appends_steps.
  - intros ?. appends_steps.
Qed.

Lemma s3_to_redshift_appends (env : Env) (kwargs : gmap string value)
  (name csv role delim quote dfmt tfmt region params : string) :
  appends (forwards kwargs)
    (s3_to_redshift env name csv role delim quote dfmt tfmt region params).
Proof.
  unfold s3_to_redshift, cursor_execute, connect_commit, connect_rollback.
  appends_steps.
Qed.

Lemma pandas_to_redshift_appends (env : Env) (data_frame : DataFrame)
  (name ts_start ts_end : string) (o : Options) (kwargs : gmap string value) :
  appends (forwards kwargs)
    (pandas_to_redshift env data_frame name ts_start ts_end o kwargs).
Proof.
  unfold pandas_to_redshift.
  apply appends_bind; [apply appends_lift|]. intros df1.
  apply appends_bind.
  { destruct (append o); [|apply appends_ret].
    unfold redshift_to_pandas, cursor_execute.
    apply appends_bind; [|intros ?; apply appends_ret].
    apply appends_bind; [apply appends_call; exact I|]. intros _ tr.
    exists []. simpl. now rewrite app_nil_r. }
  intros schema.
  apply appends_bind; [apply appends_lift|]. intros df2.
  apply appends_bind; [apply appends_lift|]. intros l1.
  apply appends_bind; [apply appends_lift|]. intros l2.
  apply appends_bind.
  { apply (appends_weaken (forwards (filter_kwargs kwargs)));
      [|apply df_to_s3_appends].
    intros [ | | | |b k body options]; simpl; try exact id.
    now rewrite filter_kwargs_idem. }
  intros _. apply appends_bind.
  - destruct (negb (append o)); [|apply appends_ret].
    apply create_redshift_table_appends.
  - intros _. apply s3_to_redshift_appends.
Qed.

(** What [df_to_s3] does when the filtered options hold no "Body" and the
    local copy, if asked for, is written. *)
Lemma df_to_s3_uploads (env : Env) (data_frame : DataFrame)
  (csv_name : string) (index save_local : bool) (delimiter : string)
  (kwargs : gmap string value) (tr : list Event) :
  filter_kwargs kwargs !! "Body" = None ->
  save_local = false \/ write_error env tr csv_name = None ->
  fst (df_to_s3 env data_frame csv_name index save_local delimiter kwargs tr)
  = tr
      ++ (if save_local
          then [WriteFile csv_name (to_csv env data_frame index delimiter)]
          else [])
      ++ [PutObject (s3_bucket_var env) (s3_subdirectory_var env +:+ csv_name)
            (to_csv env data_frame index delimiter) (filter_kwargs kwargs)].
Proof.
  intros Hbody Hlocal. unfold df_to_s3, put_object.
  rewrite Hbody, (filter_kwargs_rejects kwargs "Key")
    by (simpl; intuition discriminate).
  unfold mbind, call, ret.
  destruct save_local.
  - destruct Hlocal as [Hl|Hl]; [discriminate|]. rewrite Hl. simpl.
    now rewrite <- app_assoc.
  - reflexivity.
Qed.

(** C10: the options that reach putObject are exactly the
    caller-supplied options whose names are verbatim in the accepted list
    and whose values are not null, so an option named "CacheControl" never
    does.  Every upload made by [df_to_s3] or by the whole pipeline carries
    exactly those options, and [df_to_s3] does make the upload whenever they
    hold no "Body" (and the local copy, if asked for, is written). *)
Theorem forwarded_storage_options (env : Env) (data_frame : DataFrame)
  (csv_name : string) (index save_local : bool) (delimiter : string)
  (redshift_table_name ts_start ts_end : string) (o : Options)
  (kwargs : gmap string value) (tr : list Event) :
  (forall k v,
      filter_kwargs kwargs !! k = Some v
      <-> kwargs !! k = Some v /\ In k S3_ACCEPTED_KWARGS /\ v <> VNone)
  /\ filter_kwargs kwargs !! "CacheControl" = None
  /\ (filter_kwargs kwargs !! "Body" = None ->
      save_local = false \/ write_error env tr csv_name = None ->
      fst (df_to_s3 env data_frame csv_name index save_local delimiter
             kwargs tr)
      = tr
          ++ (if save_local
              then [WriteFile csv_name
                      (to_csv env data_frame index delimiter)]
              else [])
          ++ [PutObject (s3_bucket_var env)
                (s3_subdirectory_var env +:+ csv_name)
                (to_csv env data_frame index delimiter)
                (filter_kwargs kwargs)])
  /\ (exists new,
         fst (df_to_s3 env data_frame csv_name index save_local delimiter
                kwargs tr) = tr ++ new
         /\ Forall (forwards kwargs) new)
  /\ (exists new,
         fst (pandas_to_redshift env data_frame redshift_table_name ts_start
                ts_end o kwargs tr) = tr ++ new
         /\ Forall (forwards kwargs) new).
Proof.
  split; [apply filter_kwargs_lookup|].
  split; [apply filter_kwargs_rejects; simpl; intuition discriminate|].
  split; [apply df_to_s3_uploads|].
  split; [apply df_to_s3_appends | apply pandas_to_redshift_appends].
Qed.

Lemma forwarded_storage_options_witness :
  fst (df_to_s3 sample_env sample_raw "t.csv" false false "," sample_kwargs [])
  = [] ++ [] ++ [PutObject "bucket" "stage/t.csv" "csv"
                   (filter_kwargs sample_kwargs)].
Proof.
  apply (proj1 (proj2 (proj2
           (forwarded_storage_options sample_env sample_raw "t.csv" false
              false "," "t" "2020-01-01" "2020-01-02" default_options
              sample_kwargs [])))).
  - vm_compute. reflexivity.
  - left. reflexivity.
Defined.


(** * Further properties *)

(** ** Reconciliation, continued *)

(** The result of a reconciliation against a schema with rows: the
    selected columns, their names, and where they come from. *)
Lemma reconciled_frame (raw_df schema_df : DataFrame) :
  List.NoDup (pd.columns raw_df) ->
  List.NoDup (pd.columns schema_df) ->
  pd.nrows schema_df <> 0%nat ->
  exists cols,
    invalidate_to_schema raw_df (Some schema_df)
    = Ok (mkDataFrame (df_index raw_df) cols)
    /\ map col_name cols = pd.columns schema_df
    /\ incl cols
         (kept_columns raw_df schema_df
            ++ filled_columns (pd.nrows raw_df)
                 (map col_name (kept_columns raw_df schema_df))
                 (df_columns schema_df))
    /\ (forall c, In c (df_columns raw_df) ->
                  In (col_name c) (pd.columns schema_df) -> In c cols).
Proof.
  intros Hraw Hschema Hrows.
  rewrite (reconcile_steps raw_df schema_df Hschema Hrows).
  destruct (select_by_names _ (pd.columns schema_df)
              (reconciled_names_NoDup raw_df schema_df (pd.nrows raw_df)
                 Hraw Hschema)
              (reconciled_names_cover raw_df schema_df (pd.nrows raw_df)))
    as [cols [Hsel [Hnames [Hsub Hall]]]].
  exists cols. unfold pd.getitem_labels. simpl. rewrite Hsel. simpl.
  repeat split; try assumption.
  intros c Hc Hname. apply Hall; [|assumption].
  apply in_or_app. left. unfold kept_columns. apply filter_In.
  split; [assumption | now apply mem_In].
Qed.

Lemma select_own_names (cols cs : list Column) :
  List.NoDup (map col_name cols) -> incl cs cols ->
  pd.select cols (map col_name cs) = Ok cs.
Proof.
  intros Hnd. induction cs as [|c cs IH]; intros Hincl; [reflexivity|].
  simpl. rewrite (filter_label_unique c cols Hnd (Hincl c (or_introl eq_refl))).
  rewrite IH; [reflexivity|]. intros x Hx. apply Hincl. now right.
Qed.

Lemma filter_all {A : Type} (f : A -> bool) (l : list A) :
  (forall x, In x l -> f x = true) -> List.filter f l = l.
Proof.
  induction l as [|a l IH]; simpl; intros H; [reflexivity|].
  rewrite (H a (or_introl eq_refl)). f_equal. apply IH.
  intros x Hx. apply H. now right.
Qed.

(** A frame that already has the schema's column names, in the schema's
    order, is left as it is. *)
Lemma reconcile_conforming (idx : Index) (cols : list Column)
  (schema_df : DataFrame) :
  map col_name cols = pd.columns schema_df ->
  List.NoDup (pd.columns schema_df) ->
  pd.nrows schema_df <> 0%nat ->
  invalidate_to_schema (mkDataFrame idx cols) (Some schema_df)
  = Ok (mkDataFrame idx cols).
Proof.
  intros Hnames Hschema Hrows.
  rewrite (reconcile_steps _ schema_df Hschema Hrows).
  assert (Hkept : kept_columns (mkDataFrame idx cols) schema_df = cols).
  { unfold kept_columns. simpl. apply filter_all. intros c Hc.
    apply mem_In. rewrite <- Hnames. now apply in_map. }
  rewrite Hkept.
  assert (Hfilled : filled_columns (pd.nrows (mkDataFrame idx cols))
                      (map col_name cols) (df_columns schema_df) = []).
  { unfold filled_columns. rewrite filter_none; [reflexivity|].
    intros c Hc. apply negb_false_iff, mem_In. rewrite Hnames.
    now apply in_map. }
  rewrite Hfilled, app_nil_r. unfold pd.getitem_labels. simpl.
  rewrite <- Hnames, select_own_names; [reflexivity | | apply incl_refl].
  now rewrite Hnames.
Qed.

(** X1: reconciling twice is reconciling once: the result of
    [invalidate_to_schema] is a fixed point of it for the same schema. *)
Theorem invalidate_to_schema_idempotent (raw_df schema_df out : DataFrame) :
  List.NoDup (pd.columns raw_df) ->
  List.NoDup (pd.columns schema_df) ->
  pd.nrows schema_df <> 0%nat ->
  invalidate_to_schema raw_df (Some schema_df) = Ok out ->
  invalidate_to_schema out (Some schema_df) = Ok out.
Proof.
  intros Hraw Hschema Hrows Hout.
  destruct (reconciled_frame raw_df schema_df Hraw Hschema Hrows)
    as [cols [Hres [Hnames _]]].
  rewrite Hres in Hout. injection Hout as <-.
  now apply reconcile_conforming.
Qed.

Lemma invalidate_to_schema_idempotent_witness :
  exists out,
    invalidate_to_schema sample_raw (Some sample_schema) = Ok out
    /\ invalidate_to_schema out (Some sample_schema) = Ok out.
Proof.
  eexists. split; [reflexivity|].
  apply (invalidate_to_schema_idempotent sample_raw sample_schema).
  - names_distinct.
  - names_distinct.
  - simpl. discriminate.
  - reflexivity.
Defined.

Lemma filled_columns_by_structure (n : nat) (present : list string)
  (cs1 cs2 : list Column) :
  map col_name cs1 = map col_name cs2 ->
  map col_dtype cs1 = map col_dtype cs2 ->
  filled_columns n present cs1 = filled_columns n present cs2.
Proof.
  revert cs2. unfold filled_columns.
  induction cs1 as [|a cs1 IH]; intros [|b cs2] Hn Hd;
    try discriminate; [reflexivity|].
  destruct a as [an ad av], b as [bn bd bv]. simpl in Hn, Hd.
  injection Hn as -> Hn. injection Hd as -> Hd.
  cbn [List.filter map col_name col_dtype].
  destruct (py.mem bn present); cbn [negb map col_name col_dtype].
  - now apply IH.
  - f_equal. now apply IH.
Qed.

(** X2: only the structure of the reference counts.  Two references with
    the same column names and column types, each with at least one row,
    reconcile every dataset to the same result, whatever their values and
    however many rows they have. *)
Theorem invalidate_to_schema_structure_only (raw_df schema1 schema2 : DataFrame) :
  List.NoDup (pd.columns schema1) ->
  pd.columns schema1 = pd.columns schema2 ->
  map col_dtype (df_columns schema1) = map col_dtype (df_columns schema2) ->
  pd.nrows schema1 <> 0%nat ->
  pd.nrows schema2 <> 0%nat ->
  invalidate_to_schema raw_df (Some schema1)
  = invalidate_to_schema raw_df (Some schema2).
Proof.
  intros Hnd Hnames Htypes Hr1 Hr2.
  assert (Hnd2 : List.NoDup (pd.columns schema2)) by (now rewrite <- Hnames).
  rewrite (reconcile_steps raw_df schema1 Hnd Hr1).
  rewrite (reconcile_steps raw_df schema2 Hnd2 Hr2).
  unfold kept_columns. rewrite <- Hnames.
  now rewrite (filled_columns_by_structure _ _ (df_columns schema1)
                 (df_columns schema2) Hnames Htypes).
Qed.

Lemma invalidate_to_schema_structure_only_witness :
  invalidate_to_schema sample_raw (Some sample_schema)
  = invalidate_to_schema sample_raw (Some other_values_schema).
Proof.
  apply (invalidate_to_schema_structure_only sample_raw sample_schema
           other_values_schema).
  - names_distinct.
  - reflexivity.
  - reflexivity.
  - simpl. discriminate.
  - simpl. discriminate.
Defined.

(** X3: when the incoming dataset has exactly the reference's column
    names, in any order, reconciliation only reorders: the result has the
    reference's column order and its columns are the incoming columns, none
    dropped and none filled in. *)
Theorem invalidate_to_schema_reorders (raw_df schema_df : DataFrame) :
  Permutation (pd.columns raw_df) (pd.columns schema_df) ->
  List.NoDup (pd.columns schema_df) ->
  pd.nrows schema_df <> 0%nat ->
  exists out,
    invalidate_to_schema raw_df (Some schema_df) = Ok out
    /\ pd.columns out = pd.columns schema_df
    /\ Permutation (df_columns out) (df_columns raw_df).
Proof.
  intros Hperm Hschema Hrows.
  assert (Hraw : List.NoDup (pd.columns raw_df)).
  { revert Hschema. apply Permutation_NoDup. now symmetry. }
  destruct (reconciled_frame raw_df schema_df Hraw Hschema Hrows)
    as [cols [Hres [Hnames [Hsub Hall]]]].
  exists (mkDataFrame (df_index raw_df) cols).
  split; [assumption|]. split; [assumption|]. simpl.
  apply Stdlib.Sorting.Permutation.NoDup_Permutation.
  - apply (NoDup_map_inv col_name). now rewrite Hnames.
  - now apply (NoDup_map_inv col_name).
  - intros c. split.
    + intros Hc. apply Hsub, in_app_or in Hc as [Hc|Hc].
      * now apply filter_In in Hc as [Hc _].
      * exfalso. unfold filled_columns in Hc.
        apply in_map_iff in Hc as [s [_ Hs]].
        apply filter_In in Hs as [Hs Hm].
        apply negb_true_iff, mem_not_In in Hm. apply Hm.
        assert (Hin : In (col_name s) (pd.columns raw_df)).
        { apply (Permutation_in _ (Permutation_sym Hperm)).
          now apply in_map. }
        apply in_map_iff in Hin as [r [Hr Hin]].
        apply in_map_iff. exists r. split; [assumption|].
        apply filter_In. split; [assumption|].
        apply mem_In. rewrite Hr. now apply in_map.
    + intros Hc. apply Hall; [assumption|].
      apply (Permutation_in _ Hperm). now apply in_map.
Qed.

Lemma invalidate_to_schema_reorders_witness :
  exists out,
    invalidate_to_schema sample_raw (Some swapped_schema) = Ok out
    /\ pd.columns out = pd.columns swapped_schema
    /\ Permutation (df_columns out) (df_columns sample_raw).
Proof.
  apply (invalidate_to_schema_reorders sample_raw swapped_schema).
  - apply perm_swap.
  - names_distinct.
  - simpl. discriminate.
Defined.

(** ** Column-name validation, continued *)

Lemma lower_char_idem (c : ascii) :
  py.lower_char (py.lower_char c) = py.lower_char c.
Proof. destruct c as [[] [] [] [] [] [] [] []]; reflexivity. Qed.

Lemma lower_idem (s : string) : py.lower (py.lower s) = py.lower s.
Proof.
  induction s as [|c s IH]; simpl; [reflexivity|].
  now rewrite lower_char_idem, IH.
Qed.

Lemma lower_append (a b : string) :
  py.lower (a +:+ b) = py.lower a +:+ py.lower b.
Proof.
  induction a as [|c a IH]; [reflexivity|].
  change (String (py.lower_char c) (py.lower (a +:+ b))
          = String (py.lower_char c) (py.lower a +:+ py.lower b)).
  now rewrite IH.
Qed.

Lemma lower_quoted (x : string) : py.lower (quoted x) = quoted (py.lower x).
Proof. unfold quoted. now rewrite !lower_append. Qed.

Lemma has_space_append (a b : string) :
  py.has_space (a +:+ b) = py.has_space a || py.has_space b.
Proof.
  induction a as [|c a IH]; [reflexivity|].
  change (py.isspace c || py.has_space (a +:+ b)
          = py.isspace c || py.has_space a || py.has_space b).
  now rewrite IH, orb_assoc.
Qed.

Lemma has_space_quoted (x : string) :
  py.has_space (quoted x) = py.has_space x.
Proof.
  unfold quoted. rewrite !has_space_append. simpl. now rewrite orb_false_r.
Qed.

Lemma existsb_quoted (names : list string) :
  existsb py.has_space (map quoted names) = existsb py.has_space names.
Proof.
  induction names as [|n names IH]; [reflexivity|].
  cbn [map existsb]. now rewrite has_space_quoted, IH.
Qed.

Lemma validate_passes (lines : list string) (df : DataFrame) :
  (forall x, In x (pd.columns df) -> ~ In (py.lower x) (reserve_words lines)) ->
  validate_column_names lines df
  = Ok (if existsb py.has_space (map py.lower (pd.columns df))
        then quoted_frame df else lowered_frame df).
Proof.
  intros Hall.
  destruct (validate_column_names_cases lines df)
    as [[Hok _]|[x [Hx [Hr _]]]]; [assumption|].
  exfalso. now apply (Hall x).
Qed.

Lemma validate_ok_inv (lines : list string) (df out : DataFrame) :
  validate_column_names lines df = Ok out ->
  out = (if existsb py.has_space (map py.lower (pd.columns df))
         then quoted_frame df else lowered_frame df)
  /\ forall x, In x (pd.columns df) -> ~ In (py.lower x) (reserve_words lines).
Proof.
  intros Hout.
  destruct (validate_column_names_cases lines df)
    as [[Hok Hall]|[x [_ [_ He]]]]; [|congruence].
  rewrite Hok in Hout. injection Hout as <-. now split.
Qed.

Lemma lowered_frame_idem (df : DataFrame) :
  lowered_frame (lowered_frame df) = lowered_frame df.
Proof.
  unfold lowered_frame. simpl. f_equal. rewrite map_map.
  apply map_ext. intros c. unfold pd.set_name. simpl.
  now rewrite lower_idem.
Qed.

(** X4: on names without whitespace validation is idempotent: a dataset
    that validation returned is returned unchanged by a second
    validation. *)
Theorem validate_column_names_idempotent (lines : list string)
  (df out : DataFrame) :
  validate_column_names lines df = Ok out ->
  existsb py.has_space (map py.lower (pd.columns df)) = false ->
  validate_column_names lines out = Ok out.
Proof.
  intros Hout Hspace. apply validate_ok_inv in Hout as [-> Hall].
  rewrite Hspace. rewrite validate_passes.
  - rewrite lowered_columns, map_map.
    rewrite (map_ext _ py.lower (fun x => lower_idem x)), Hspace.
    now rewrite lowered_frame_idem.
  - intros x Hx. rewrite lowered_columns in Hx.
    apply in_map_iff in Hx as [y [<- Hy]]. rewrite lower_idem.
    now apply Hall.
Qed.

Lemma validate_column_names_idempotent_witness :
  validate_column_names sample_lines (lowered_frame plain_frame)
  = Ok (lowered_frame plain_frame).
Proof.
  apply (validate_column_names_idempotent sample_lines plain_frame);
    reflexivity.
Defined.

(** X5: on names with whitespace validation is not idempotent.  A dataset
    that validation returned with quoted names gets, from a second
    validation, a second pair of quotes around every name (as long as no
    quoted name is itself a reserved word). *)
Theorem validate_column_names_quotes_again (lines : list string)
  (df out : DataFrame) :
  validate_column_names lines df = Ok out ->
  existsb py.has_space (map py.lower (pd.columns df)) = true ->
  (forall x, In x (pd.columns out) -> ~ In x (reserve_words lines)) ->
  exists out2,
    validate_column_names lines out = Ok out2
    /\ pd.columns out2 = map quoted (pd.columns out)
    /\ pd.columns out = map quoted (map py.lower (pd.columns df)).
Proof.
  intros Hout Hspace Hfree. apply validate_ok_inv in Hout as [-> _].
  rewrite Hspace in *. rewrite quoted_columns in *.
  assert (Hlow : map py.lower (map quoted (map py.lower (pd.columns df)))
                 = map quoted (map py.lower (pd.columns df))).
  { rewrite !map_map. apply map_ext. intros x.
    now rewrite lower_quoted, lower_idem. }
  exists (quoted_frame (quoted_frame df)). rewrite validate_passes.
  - rewrite quoted_columns, Hlow.
    rewrite existsb_quoted, Hspace. rewrite !quoted_columns, Hlow. repeat split.
  - intros x Hx. rewrite quoted_columns in Hx. apply Hfree.
    apply in_map_iff in Hx as [y [<- Hy]]. apply in_map_iff.
    exists y. split; [|assumption].
    apply in_map_iff in Hy as [z [<- _]].
    now rewrite lower_quoted, lower_idem.
Qed.

Lemma validate_column_names_quotes_again_witness :
  exists out2,
    validate_column_names sample_lines (quoted_frame spaced_frame) = Ok out2
    /\ pd.columns out2 = map quoted (pd.columns (quoted_frame spaced_frame))
    /\ pd.columns (quoted_frame spaced_frame)
       = map quoted (map py.lower (pd.columns spaced_frame)).
Proof.
  apply (validate_column_names_quotes_again sample_lines spaced_frame
           (quoted_frame spaced_frame)).
  - reflexivity.
  - reflexivity.
  - intros x Hx. simpl in Hx.
    destruct Hx as [<-|[<-|[]]]; vm_compute; intuition discriminate.
Defined.

Lemma check_reserved_first (rrwords cols : list string) (e : exn) :
  check_reserved rrwords cols = Raise e ->
  exists before col after,
    cols = before ++ col :: after
    /\ Forall (fun b => ~ In b rrwords) before
    /\ In col rrwords
    /\ e = ValueError (reserve_message col).
Proof.
  induction cols as [|c cols IH]; simpl; [discriminate|].
  destruct (py.mem c rrwords) eqn:Hm.
  - intros He. injection He as <-. exists [], c, cols.
    repeat split; [constructor | now apply mem_In].
  - intros He. destruct (IH He) as [before [col [after [-> [Hb [Hc ->]]]]]].
    exists (c :: before), col, after. repeat split; try assumption.
    constructor; [now apply mem_not_In | assumption].
Qed.

(** X6: whatever validation raises is the reserved-word error for the
    first column, in column order, whose lower-cased name is reserved; the
    columns before it are not reserved, and the message carries the
    lower-cased name. *)
Theorem validate_column_names_first_reserved (lines : list string)
  (df : DataFrame) (e : exn) :
  validate_column_names lines df = Raise e ->
  exists before col after,
    map py.lower (pd.columns df) = before ++ col :: after
    /\ Forall (fun b => ~ In b (reserve_words lines)) before
    /\ In col (reserve_words lines)
    /\ e = ValueError ("DataFrame column name " +:+ col
                         +:+ " is a reserve word in redshift").
Proof.
  unfold validate_column_names. fold (reserve_words lines).
  rewrite set_columns_lower, lowered_columns.
  destruct (check_reserved (reserve_words lines)
              (map py.lower (pd.columns df))) as [u|e'] eqn:Hcheck; simpl.
  - destruct (0 <? _)%nat; discriminate.
  - intros He. injection He as <-. now apply check_reserved_first.
Qed.

Lemma validate_column_names_first_reserved_witness :
  exists before col after,
    map py.lower (pd.columns doubly_reserved_frame) = before ++ col :: after
    /\ Forall (fun b => ~ In b (reserve_words sample_lines)) before
    /\ In col (reserve_words sample_lines)
    /\ ValueError "DataFrame column name table is a reserve word in redshift"
       = ValueError ("DataFrame column name " +:+ col
                       +:+ " is a reserve word in redshift").
Proof.
  apply (validate_column_names_first_reserved sample_lines
           doubly_reserved_frame).
  reflexivity.
Defined.

(** ** Warehouse call sequences *)

(** What [s3_to_redshift] does when both of its calls go through. *)
Lemma s3_to_redshift_commits (env : Env) (redshift_table_name csv_name
  rs_iam_role delimiter quotechar dateformat timeformat region parameters
  s3_to_sql : string) (tr : list Event) :
  s3_to_sql
  = copy_statement env redshift_table_name csv_name rs_iam_role delimiter
      quotechar dateformat timeformat region parameters ->
  execute_error env tr s3_to_sql = None ->
  commit_error env (tr ++ [Execute s3_to_sql]) = None ->
  s3_to_redshift env redshift_table_name csv_name rs_iam_role delimiter
    quotechar dateformat timeformat region parameters tr
  = (tr ++ [Execute s3_to_sql; Commit], Ok tt).
Proof.
  intros -> Hexec Hcommit.
  unfold s3_to_redshift, try_except, mbind, cursor_execute, connect_commit,
    call.
  rewrite Hexec, Hcommit. now rewrite <- app_assoc.
Qed.

(** X7: when the copy statement executes and the commit goes through,
    [s3_to_redshift] has made exactly the execute and the commit, no
    rollback, and returns normally. *)
Theorem copy_success_commits (env : Env) (redshift_table_name csv_name
  rs_iam_role delimiter quotechar dateformat timeformat region parameters
  s3_to_sql : string) (tr : list Event) :
  s3_to_sql
  = copy_statement env redshift_table_name csv_name rs_iam_role delimiter
      quotechar dateformat timeformat region parameters ->
  execute_error env tr s3_to_sql = None ->
  commit_error env (tr ++ [Execute s3_to_sql]) = None ->
  s3_to_redshift env redshift_table_name csv_name rs_iam_role delimiter
    quotechar dateformat timeformat region parameters tr
  = (tr ++ [Execute s3_to_sql; Commit], Ok tt).
Proof.
  intros Hsql Hexec Hcommit. now apply s3_to_redshift_commits.
Qed.

Lemma copy_success_commits_witness :
  s3_to_redshift sample_env "t" "t.csv" EmptyString "," dquote "auto" "auto"
    EmptyString EmptyString []
  = ([] ++ [ Execute (copy_statement sample_env "t" "t.csv" EmptyString ","
                        dquote "auto" "auto" EmptyString EmptyString);
             Commit ],
     Ok tt).
Proof.
  apply (copy_success_commits sample_env "t" "t.csv" EmptyString "," dquote
           "auto" "auto" EmptyString EmptyString _ []); reflexivity.
Defined.

(** X8: when the copy statement executes and the commit fails,
    [s3_to_redshift] rolls back after the failed commit and the commit's
    error is what the caller receives (the rollback returning normally). *)
Theorem copy_commit_failure_rolls_back (env : Env) (redshift_table_name
  csv_name rs_iam_role delimiter quotechar dateformat timeformat region
  parameters what s3_to_sql : string) (tr : list Event) :
  s3_to_sql
  = copy_statement env redshift_table_name csv_name rs_iam_role delimiter
      quotechar dateformat timeformat region parameters ->
  execute_error env tr s3_to_sql = None ->
  commit_error env (tr ++ [Execute s3_to_sql]) = Some what ->
  fst (s3_to_redshift env redshift_table_name csv_name rs_iam_role delimiter
         quotechar dateformat timeformat region parameters tr)
  = tr ++ [Execute s3_to_sql; Commit; Rollback]
  /\ (rollback_error env (tr ++ [Execute s3_to_sql; Commit]) = None ->
      snd (s3_to_redshift env redshift_table_name csv_name rs_iam_role
             delimiter quotechar dateformat timeformat region parameters tr)
      = Raise (ExternalError what)).
Proof.
  intros -> Hexec Hcommit.
  unfold s3_to_redshift, try_except, mbind, cursor_execute, connect_commit,
    connect_rollback, call, raise.
  rewrite Hexec, Hcommit. simpl. rewrite <- !app_assoc. simpl. split.
  - now destruct (rollback_error env _).
  - now intros ->.
Qed.

Lemma copy_commit_failure_rolls_back_witness :
  fst (s3_to_redshift commit_failing_env "t" "t.csv" EmptyString "," dquote
         "auto" "auto" EmptyString EmptyString [])
  = [] ++ [ Execute (copy_statement commit_failing_env "t" "t.csv"
                       EmptyString "," dquote "auto" "auto" EmptyString
                       EmptyString);
            Commit; Rollback ]
  /\ (rollback_error commit_failing_env
        ([] ++ [ Execute (copy_statement commit_failing_env "t" "t.csv"
                            EmptyString "," dquote "auto" "auto" EmptyString
                            EmptyString);
                 Commit ]) = None ->
      snd (s3_to_redshift commit_failing_env "t" "t.csv" EmptyString ","
             dquote "auto" "auto" EmptyString EmptyString [])
      = Raise (ExternalError "connection lost")).
Proof.
  apply (copy_commit_failure_rolls_back commit_failing_env "t" "t.csv"
           EmptyString "," dquote "auto" "auto" EmptyString EmptyString
           "connection lost" _ []); reflexivity.
Defined.

(** X9: precedence of the credentials in the copy statement.  With a
    warehouse-side role the statement is the same whatever access key,
    secret and caller-side role are bound; without one, a bound key pair
    makes the statement independent of the caller-side role; and a key
    without its secret, or a secret without its key, never reaches the
    statement. *)
Theorem copy_statement_credentials (env : Env) (redshift_table_name csv_name
  rs_iam_role delimiter quotechar dateformat timeformat region parameters
  key secret : string) (role : option string) :
  (rs_iam_role <> EmptyString ->
   copy_statement (with_credentials env key secret role) redshift_table_name
     csv_name rs_iam_role delimiter quotechar dateformat timeformat region
     parameters
   = copy_statement env redshift_table_name csv_name rs_iam_role delimiter
       quotechar dateformat timeformat region parameters)
  /\ (rs_iam_role = EmptyString ->
      aws_1 env <> EmptyString -> aws_2 env <> EmptyString ->
      copy_statement (with_credentials env (aws_1 env) (aws_2 env) role)
        redshift_table_name csv_name rs_iam_role delimiter quotechar
        dateformat timeformat region parameters
      = copy_statement env redshift_table_name csv_name rs_iam_role delimiter
          quotechar dateformat timeformat region parameters)
  /\ (rs_iam_role = EmptyString ->
      aws_1 env = EmptyString \/ aws_2 env = EmptyString ->
      key = EmptyString \/ secret = EmptyString ->
      copy_statement (with_credentials env key secret (aws_role env))
        redshift_table_name csv_name rs_iam_role delimiter quotechar
        dateformat timeformat region parameters
      = copy_statement env redshift_table_name csv_name rs_iam_role delimiter
          quotechar dateformat timeformat region parameters).
Proof.
  unfold copy_statement, with_credentials. simpl. repeat split.
  - intros Hrole. now rewrite (nonempty_true _ Hrole).
  - intros -> H1 H2. simpl.
    now rewrite (nonempty_true _ H1), (nonempty_true _ H2).
  - intros -> Henv Hnew. simpl.
    assert (He : nonempty (aws_1 env) && nonempty (aws_2 env) = false).
    { destruct Henv as [-> | ->]; simpl; [reflexivity | apply andb_false_r]. }
    assert (Hn : nonempty key && nonempty secret = false).
    { destruct Hnew as [-> | ->]; simpl; [reflexivity | apply andb_false_r]. }
    now rewrite He, Hn.
Qed.

Lemma copy_statement_credentials_witness :
  copy_statement (with_credentials sample_env "other" "pair" (Some "r")) "t"
    "t.csv" "arn:role" "," dquote "auto" "auto" EmptyString EmptyString
  = copy_statement sample_env "t" "t.csv" "arn:role" "," dquote "auto" "auto"
      EmptyString EmptyString.
Proof.
  apply (proj1 (copy_statement_credentials sample_env "t" "t.csv" "arn:role"
                  "," dquote "auto" "auto" EmptyString EmptyString "other"
                  "pair" (Some "r"))).
  discriminate.
Defined.

(** The calls of [create_redshift_table], outcome by outcome. *)
Lemma create_redshift_table_calls (env : Env) (data_frame : DataFrame)
  (redshift_table_name : string) (column_data_types : option (list string))
  (index append : bool) (diststyle distkey : string) (sort_interleaved : bool)
  (sortkey : string) (json_columns : option (list string))
  (types : list string) (tr : list Event) (drop create : string) :
  resolved_types data_frame column_data_types index json_columns = Ok types ->
  distribution_ok diststyle distkey ->
  drop = drop_statement redshift_table_name ->
  create = create_statement redshift_table_name
             (table_columns data_frame index) types diststyle distkey
             sort_interleaved sortkey ->
  create_redshift_table env data_frame redshift_table_name column_data_types
    index append diststyle distkey sort_interleaved sortkey json_columns tr
  = match execute_error env tr drop with
    | Some what => (tr ++ [Execute drop], Raise (ExternalError what))
    | None =>
        match execute_error env (tr ++ [Execute drop]) create with
        | Some what =>
            (tr ++ [Execute drop; Execute create], Raise (ExternalError what))
        | None =>
            (tr ++ [Execute drop; Execute create; Commit],
             match commit_error env (tr ++ [Execute drop; Execute create]) with
             | Some what => Raise (ExternalError what)
             | None => Ok tt
             end)
        end
    end.
Proof.
  intros Htypes Hdist -> ->.
  rewrite (create_redshift_table_steps _ _ _ _ _ _ _ _ _ _ _ types _ Htypes).
  unfold create_statement, distribution_part, drop_statement.
  assert (Hrun : forall q,
    run_create env redshift_table_name q tr
    = match execute_error env tr
              ("drop table if exists " +:+ redshift_table_name +:+ ";") with
      | Some what =>
          (tr ++ [Execute ("drop table if exists " +:+ redshift_table_name
                             +:+ ";")],
           Raise (ExternalError what))
      | None =>
          match execute_error env
                  (tr ++ [Execute ("drop table if exists "
                                     +:+ redshift_table_name +:+ ";")]) q with
          | Some what =>
              (tr ++ [Execute ("drop table if exists "
                                 +:+ redshift_table_name +:+ ";");
                      Execute q],
               Raise (ExternalError what))
          | None =>
              (tr ++ [Execute ("drop table if exists "
                                 +:+ redshift_table_name +:+ ";");
                      Execute q; Commit],
               match commit_error env
                       (tr ++ [Execute ("drop table if exists "
                                          +:+ redshift_table_name +:+ ";");
                               Execute q]) with
               | Some what => Raise (ExternalError what)
               | None => Ok tt
               end)
          end
      end).
  { intros q. unfold run_create, mbind, cursor_execute, connect_commit, call.
    destruct (execute_error env tr _); [reflexivity|].
    destruct (execute_error env _ q); rewrite <- !app_assoc; reflexivity. }
  destruct (nonempty distkey) eqn:Hkey.
  - apply Hrun.
  - destruct Hdist as [Hd|Hd]; [congruence|].
    apply mem_In in Hd. rewrite Hd. apply Hrun.
Qed.

(** X10: once its options are accepted, [create_redshift_table] sends the
    drop statement first, the create statement only if the drop went
    through, and the commit only if the create went through; the first
    call that fails ends the sequence with its error, and no rollback is
    ever issued. *)
Theorem create_redshift_table_sequence (env : Env) (data_frame : DataFrame)
  (redshift_table_name : string) (column_data_types : option (list string))
  (index append : bool) (diststyle distkey : string) (sort_interleaved : bool)
  (sortkey : string) (json_columns : option (list string))
  (types : list string) (tr : list Event) (drop create : string) :
  resolved_types data_frame column_data_types index json_columns = Ok types ->
  distribution_ok diststyle distkey ->
  drop = drop_statement redshift_table_name ->
  create = create_statement redshift_table_name
             (table_columns data_frame index) types diststyle distkey
             sort_interleaved sortkey ->
  create_redshift_table env data_frame redshift_table_name column_data_types
    index append diststyle distkey sort_interleaved sortkey json_columns tr
  = match execute_error env tr drop with
    | Some what => (tr ++ [Execute drop], Raise (ExternalError what))
    | None =>
        match execute_error env (tr ++ [Execute drop]) create with
        | Some what =>
            (tr ++ [Execute drop; Execute create], Raise (ExternalError what))
        | None =>
            (tr ++ [Execute drop; Execute create; Commit],
             match commit_error env (tr ++ [Execute drop; Execute create]) with
             | Some what => Raise (ExternalError what)
             | None => Ok tt
             end)
        end
    end.
Proof.
  intros Htypes Hdist Hdrop Hcreate.
  now apply (create_redshift_table_calls env data_frame redshift_table_name
               column_data_types index append diststyle distkey
               sort_interleaved sortkey json_columns types).
Qed.

Lemma create_redshift_table_sequence_witness :
  create_redshift_table failing_env sample_raw "t" None false false "even"
    EmptyString false EmptyString (Some []) []
  = ([] ++ [Execute "drop table if exists t;"],
     Raise (ExternalError "syntax error")).
Proof.
  apply (create_redshift_table_sequence failing_env sample_raw "t" None false
           false "even" EmptyString false EmptyString (Some [])
           ["BIGINT"; "VARCHAR(MAX)"] [] "drop table if exists t;"
           "create table t (b BIGINT, z VARCHAR(MAX)) diststyle even").
  - reflexivity.
  - right. simpl. now left.
  - reflexivity.
  - reflexivity.
Defined.

(** X11: [exec_commit] makes the execute call and, only if the statement
    executed, the commit call, and nothing else.  When the statement fails
    its error is raised with only the execute call made; when it executes
    the outcome is the commit's; no rollback is issued on any path. *)
Theorem exec_commit_calls (env : Env) (sql_query : string) (tr : list Event) :
  exec_commit env sql_query tr
  = match execute_error env tr sql_query with
    | Some what => (tr ++ [Execute sql_query], Raise (ExternalError what))
    | None =>
        (tr ++ [Execute sql_query; Commit],
         match commit_error env (tr ++ [Execute sql_query]) with
         | Some what => Raise (ExternalError what)
         | None => Ok tt
         end)
    end.
Proof.
  unfold exec_commit, mbind, cursor_execute, connect_commit, call.
  destruct (execute_error env tr sql_query); [reflexivity|].
  now rewrite <- app_assoc.
Qed.

Lemma exec_commit_calls_witness :
  exec_commit failing_env "delete from t" []
  = ([] ++ [Execute "delete from t"], Raise (ExternalError "syntax error"))
  /\ exec_commit commit_failing_env "delete from t" []
     = ([] ++ [Execute "delete from t"; Commit],
        Raise (ExternalError "connection lost")).
Proof.
  split.
  - apply (exec_commit_calls failing_env "delete from t" []).
  - apply (exec_commit_calls commit_failing_env "delete from t" []).
Defined.

(** ** Staging and the pipeline *)

(** [df_to_s3] as the pipeline calls it, on options already filtered and
    without a local copy. *)
Lemma df_to_s3_filtered (env : Env) (data_frame : DataFrame)
  (csv_name : string) (index : bool) (delimiter : string)
  (kwargs : gmap string value) (tr : list Event) :
  filter_kwargs kwargs !! "Body" = None ->
  df_to_s3 env data_frame csv_name index false delimiter
    (filter_kwargs kwargs) tr
  = (tr ++ [upload_event env data_frame csv_name index delimiter kwargs],
     match put_object_error env tr (s3_subdirectory_var env +:+ csv_name) with
     | Some what => Raise (ExternalError what)
     | None => Ok tt
     end).
Proof.
  intros Hbody. unfold df_to_s3, put_object, upload_event.
  rewrite filter_kwargs_idem, Hbody,
    (filter_kwargs_rejects kwargs "Key") by (simpl; intuition discriminate).
  reflexivity.
Qed.

(** X12: what a failure costs in [df_to_s3].  If the local copy cannot be
    written nothing is uploaded; if the upload fails after the local copy
    was written, the store's error is passed on as it is and the local
    file stays behind. *)
Theorem df_to_s3_failures (env : Env) (data_frame : DataFrame)
  (csv_name : string) (index : bool) (delimiter what : string)
  (kwargs : gmap string value) (tr : list Event) (local_copy : Event) :
  local_copy = WriteFile csv_name (to_csv env data_frame index delimiter) ->
  (write_error env tr csv_name = Some what ->
   df_to_s3 env data_frame csv_name index true delimiter kwargs tr
   = (tr ++ [local_copy], Raise (ExternalError what)))
  /\ (write_error env tr csv_name = None ->
      filter_kwargs kwargs !! "Body" = None ->
      put_object_error env (tr ++ [local_copy])
        (s3_subdirectory_var env +:+ csv_name) = Some what ->
      df_to_s3 env data_frame csv_name index true delimiter kwargs tr
      = (tr ++ [local_copy;
                PutObject (s3_bucket_var env)
                  (s3_subdirectory_var env +:+ csv_name)
                  (to_csv env data_frame index delimiter)
                  (filter_kwargs kwargs)],
         Raise (ExternalError what))).
Proof.
  intros ->. unfold df_to_s3, put_object, mbind, call. split.
  - now intros ->.
  - intros -> Hbody Hput.
    rewrite Hbody, (filter_kwargs_rejects kwargs "Key")
      by (simpl; intuition discriminate).
    rewrite Hput. now rewrite <- app_assoc.
Qed.

Lemma df_to_s3_failures_witness :
  df_to_s3 store_failing_env sample_raw "t.csv" false true "," ∅ []
  = ([] ++ [WriteFile "t.csv" "csv"], Raise (ExternalError "disk full")).
Proof.
  apply (proj1 (df_to_s3_failures store_failing_env sample_raw "t.csv" false
                  "," "disk full" ∅ [] (WriteFile "t.csv" "csv") eq_refl)).
  reflexivity.
Defined.

(** The pipeline in replace mode, once validation and the two boundary
    labels have gone through: staging, table creation, copy. *)
Lemma pipeline_replace_steps (env : Env) (data_frame valid : DataFrame)
  (name ts_start ts_end : string) (o : Options) (kwargs : gmap string value)
  (label_start label_end : boundary) (tr : list Event) :
  append o = false ->
  validate_column_names (reserve_words_lines env) data_frame = Ok valid ->
  _date_converter (today env) ts_start = Ok label_start ->
  _date_converter (today env) ts_end = Ok label_end ->
  pandas_to_redshift env data_frame name ts_start ts_end o kwargs tr
  = (let! _ :=
       df_to_s3 env valid (staged_name name label_start label_end) (index o)
         (save_local o) (delimiter o) (filter_kwargs kwargs) in
     let! _ :=
       create_redshift_table env valid name (column_data_types o) (index o)
         false (diststyle o) (distkey o) (sort_interleaved o) (sortkey o)
         (json_columns o) in
     s3_to_redshift env name (staged_name name label_start label_end)
       (rs_iam_role o) (delimiter o) (quotechar o) (dateformat o)
       (timeformat o) (region o) (parameters o)) tr.
Proof.
  intros Happ Hvalid Hstart Hend.
  unfold pandas_to_redshift. rewrite Hvalid, Happ, Hstart, Hend.
  reflexivity.
Qed.


(** X13: in replace mode the upload comes before anything is sent to the
    warehouse.  If the store refuses the object, the pipeline stops with
    the store's error and has executed no statement: the existing table is
    neither dropped nor touched. *)
Theorem upload_failure_spares_table (env : Env) (data_frame valid : DataFrame)
  (name ts_start ts_end what : string) (o : Options)
  (kwargs : gmap string value) (label_start label_end : boundary)
  (tr : list Event) :
  append o = false ->
  save_local o = false ->
  validate_column_names (reserve_words_lines env) data_frame = Ok valid ->
  _date_converter (today env) ts_start = Ok label_start ->
  _date_converter (today env) ts_end = Ok label_end ->
  filter_kwargs kwargs !! "Body" = None ->
  put_object_error env tr
    (s3_subdirectory_var env +:+ staged_name name label_start label_end)
  = Some what ->
  pandas_to_redshift env data_frame name ts_start ts_end o kwargs tr
  = (tr ++ [upload_event env valid (staged_name name label_start label_end)
              (index o) (delimiter o) kwargs],
     Raise (ExternalError what)).
Proof.
  intros Happ Hlocal Hvalid Hstart Hend Hbody Hput.
  rewrite (pipeline_replace_steps env data_frame valid name ts_start ts_end o
             kwargs label_start label_end tr Happ Hvalid Hstart Hend).
  unfold mbind at 1. rewrite Hlocal, (df_to_s3_filtered _ _ _ _ _ _ _ Hbody).
  now rewrite Hput.
Qed.

Lemma upload_failure_spares_table_witness :
  pandas_to_redshift store_failing_env sample_raw "t" "2020-01-01"
    "2020-01-02" replace_options ∅ []
  = ([] ++ [upload_event store_failing_env (lowered_frame sample_raw)
              "t-2020-01-01_2020-01-02.csv" false "," ∅],
     Raise (ExternalError "access denied")).
Proof.
  apply (upload_failure_spares_table store_failing_env sample_raw
           (lowered_frame sample_raw) "t" "2020-01-01" "2020-01-02"
           "access denied" replace_options ∅ (BStr "2020-01-01")
           (BStr "2020-01-02") []); reflexivity.
Defined.

(** X14: a run in replace mode in which no collaborator fails, no local
    copy is asked for, validation and both boundaries go through, the
    options hold no "Body", the column types are at hand (given by the
    caller, or inferred with the structured columns named) and the
    distribution options are accepted, makes exactly six calls, in this
    order: the upload, the drop, the create, a commit, the copy, a commit.
    The copy statement names the file that was uploaded. *)
Theorem replace_run (env : Env) (data_frame valid : DataFrame)
  (name ts_start ts_end csv_name : string) (o : Options)
  (kwargs : gmap string value) (label_start label_end : boundary)
  (types : list string) (tr : list Event) :
  calm env ->
  append o = false ->
  save_local o = false ->
  validate_column_names (reserve_words_lines env) data_frame = Ok valid ->
  _date_converter (today env) ts_start = Ok label_start ->
  _date_converter (today env) ts_end = Ok label_end ->
  csv_name = staged_name name label_start label_end ->
  filter_kwargs kwargs !! "Body" = None ->
  resolved_types valid (column_data_types o) (index o) (json_columns o)
  = Ok types ->
  distribution_ok (diststyle o) (distkey o) ->
  pandas_to_redshift env data_frame name ts_start ts_end o kwargs tr
  = (tr ++ [ upload_event env valid csv_name (index o) (delimiter o) kwargs;
             Execute (drop_statement name);
             Execute (create_statement name (table_columns valid (index o))
                        types (diststyle o) (distkey o) (sort_interleaved o)
                        (sortkey o));
             Commit;
             Execute (pipeline_copy env name csv_name o);
             Commit ],
     Ok tt).
Proof.
  intros [Hexec [Hcommit Hput]] Happ Hlocal Hvalid Hstart Hend -> Hbody
    Htypes Hdist.
  rewrite (pipeline_replace_steps env data_frame valid name ts_start ts_end o
             kwargs label_start label_end tr Happ Hvalid Hstart Hend).
  unfold mbind at 1. rewrite Hlocal, (df_to_s3_filtered _ _ _ _ _ _ _ Hbody).
  rewrite Hput. unfold mbind at 1.
  rewrite (create_redshift_table_calls env valid name (column_data_types o)
             (index o) false (diststyle o) (distkey o) (sort_interleaved o)
             (sortkey o) (json_columns o) types _ _ _ Htypes Hdist eq_refl
             eq_refl).
  rewrite !Hexec, Hcommit.
  rewrite (s3_to_redshift_commits env name _ (rs_iam_role o) (delimiter o)
             (quotechar o) (dateformat o) (timeformat o) (region o)
             (parameters o) _ _ eq_refl (Hexec _ _) (Hcommit _)).
  unfold pipeline_copy. rewrite <- !app_assoc. reflexivity.
Qed.

Lemma sample_env_calm : calm sample_env.
Proof. repeat split. Qed.

Lemma replace_run_witness :
  pandas_to_redshift sample_env sample_raw "t" "2020-01-01" "2020-01-02"
    replace_options ∅ []
  = ([] ++ [ upload_event sample_env (lowered_frame sample_raw)
               "t-2020-01-01_2020-01-02.csv" false "," ∅;
             Execute "drop table if exists t;";
             Execute "create table t (b BIGINT, z VARCHAR(MAX)) diststyle even";
             Commit;
             Execute (pipeline_copy sample_env "t"
                        "t-2020-01-01_2020-01-02.csv" replace_options);
             Commit ],
     Ok tt).
Proof.
  apply (replace_run sample_env sample_raw (lowered_frame sample_raw) "t"
           "2020-01-01" "2020-01-02" "t-2020-01-01_2020-01-02.csv"
           replace_options ∅ (BStr "2020-01-01") (BStr "2020-01-02")
           ["BIGINT"; "VARCHAR(MAX)"] []); try reflexivity.
  - repeat split.
  - right. simpl. now left.
Defined.



(** X16: in replace mode, when the column types are at hand (given by
    the caller, or inferred with the structured columns named), a diststyle
    that is neither 'even' nor 'all', with no distribution key, is found
    out only after the dataset has been uploaded: the pipeline raises the
    diststyle error with the object already in the store and nothing sent
    to the warehouse. *)
Theorem bad_diststyle_after_upload (env : Env) (data_frame valid : DataFrame)
  (name ts_start ts_end : string) (o : Options) (kwargs : gmap string value)
  (label_start label_end : boundary) (types : list string)
  (tr : list Event) :
  append o = false ->
  save_local o = false ->
  validate_column_names (reserve_words_lines env) data_frame = Ok valid ->
  _date_converter (today env) ts_start = Ok label_start ->
  _date_converter (today env) ts_end = Ok label_end ->
  filter_kwargs kwargs !! "Body" = None ->
  put_object_error env tr
    (s3_subdirectory_var env +:+ staged_name name label_start label_end)
  = None ->
  resolved_types valid (column_data_types o) (index o) (json_columns o)
  = Ok types ->
  distkey o = EmptyString ->
  ~ In (diststyle o) ["even"; "all"] ->
  pandas_to_redshift env data_frame name ts_start ts_end o kwargs tr
  = (tr ++ [upload_event env valid (staged_name name label_start label_end)
              (index o) (delimiter o) kwargs],
     Raise (ValueError "diststyle must be either 'even' or 'all'")).
Proof.
  intros Happ Hlocal Hvalid Hstart Hend Hbody Hput Htypes Hkey Hstyle.
  rewrite (pipeline_replace_steps env data_frame valid name ts_start ts_end o
             kwargs label_start label_end tr Happ Hvalid Hstart Hend).
  unfold mbind at 1. rewrite Hlocal, (df_to_s3_filtered _ _ _ _ _ _ _ Hbody).
  rewrite Hput. unfold mbind at 1.
  rewrite (create_redshift_table_steps _ _ _ _ _ _ _ _ _ _ _ types _ Htypes).
  rewrite Hkey. apply mem_not_In in Hstyle. simpl nonempty. cbv iota.
  now rewrite Hstyle.
Qed.

Lemma bad_diststyle_after_upload_witness :
  pandas_to_redshift sample_env sample_raw "t" "2020-01-01" "2020-01-02"
    bad_style_options ∅ []
  = ([] ++ [upload_event sample_env (lowered_frame sample_raw)
              "t-2020-01-01_2020-01-02.csv" false "," ∅],
     Raise (ValueError "diststyle must be either 'even' or 'all'")).
Proof.
  apply (bad_diststyle_after_upload sample_env sample_raw
           (lowered_frame sample_raw) "t" "2020-01-01" "2020-01-02"
           bad_style_options ∅ (BStr "2020-01-01") (BStr "2020-01-02")
           ["BIGINT"; "VARCHAR(MAX)"] []); try reflexivity.
  simpl. intuition discriminate.
Defined.

(** X17: in append mode the pipeline asks the warehouse for the target's
    schema before it stages anything.  If that query fails (the table does
    not exist, say), the pipeline stops with the warehouse's error, has
    uploaded nothing, and issues neither commit nor rollback. *)
Theorem append_needs_schema (env : Env) (data_frame valid : DataFrame)
  (name ts_start ts_end what : string) (o : Options)
  (kwargs : gmap string value) (tr : list Event) :
  append o = true ->
  validate_column_names (reserve_words_lines env) data_frame = Ok valid ->
  execute_error env tr ("select * from " +:+ name +:+ " limit 1") = Some what ->
  pandas_to_redshift env data_frame name ts_start ts_end o kwargs tr
  = (tr ++ [Execute ("select * from " +:+ name +:+ " limit 1")],
     Raise (ExternalError what)).
Proof.
  intros Happ Hvalid Hquery.
  unfold pandas_to_redshift. rewrite Hvalid, Happ.
  unfold redshift_to_pandas, cursor_execute, call, lift, mbind.
  now rewrite Hquery.
Qed.

Lemma append_needs_schema_witness :
  pandas_to_redshift failing_env sample_raw "t" "2020-01-01" "2020-01-02"
    append_options ∅ []
  = ([] ++ [Execute "select * from t limit 1"],
     Raise (ExternalError "syntax error")).
Proof.
  apply (append_needs_schema failing_env sample_raw (lowered_frame sample_raw)
           "t" "2020-01-01" "2020-01-02" "syntax error" append_options ∅ []);
    reflexivity.
Defined.

(** X18: in replace mode a window boundary that cannot be resolved (a
    "current_date" expression with "interval" and "day" and no digit to
    read, or a date out of range) stops the pipeline before any call on a
    collaborator: nothing is uploaded and no statement is sent. *)
Theorem boundary_error_precedes_calls (env : Env)
  (data_frame valid : DataFrame) (name ts_start ts_end : string)
  (o : Options) (kwargs : gmap string value) (e : exn) (tr : list Event) :
  append o = false ->
  validate_column_names (reserve_words_lines env) data_frame = Ok valid ->
  _date_converter (today env) ts_start = Raise e
  \/ ((exists label, _date_converter (today env) ts_start = Ok label)
      /\ _date_converter (today env) ts_end = Raise e) ->
  pandas_to_redshift env data_frame name ts_start ts_end o kwargs tr
  = (tr, Raise e).
Proof.
  intros Happ Hvalid Hbad.
  unfold pandas_to_redshift. rewrite Hvalid, Happ.
  destruct Hbad as [Hstart|[[label Hstart] Hend]].
  - now rewrite Hstart.
  - now rewrite Hstart, Hend.
Qed.

Lemma boundary_error_precedes_calls_witness :
  pandas_to_redshift sample_env sample_raw "t"
    "current_date of day interval 3" "2020-01-02" replace_options ∅ []
  = ([], Raise (ValueError "invalid literal for int() with base 10: ''")).
Proof.
  apply (boundary_error_precedes_calls sample_env sample_raw
           (lowered_frame sample_raw) "t" "current_date of day interval 3"
           "2020-01-02" replace_options ∅).
  - reflexivity.
  - reflexivity.
  - left. reflexivity.
Defined.

Lemma copy_statement_no_ddl (env : Env) (name csv role delim quote dfmt tfmt
  region params : string) :
  harmless (Execute (copy_statement env name csv role delim quote dfmt tfmt
                       region params)).
Proof.
  unfold harmless, copy_statement.
  destruct (nonempty region), (nonempty (aws_token env)); split; reflexivity.
Qed.

Lemma df_to_s3_harmless (env : Env) (data_frame : DataFrame)
  (csv_name : string) (index save_local : bool) (delimiter : string)
  (kwargs : gmap string value) :
  appends harmless
    (df_to_s3 env data_frame csv_name index save_local delimiter kwargs).
Proof.
  unfold df_to_s3. apply appends_bind.
  - destruct save_local; appends_steps.
  - intros _. unfold put_object.
    destruct (filter_kwargs kwargs !! "Key"); [apply appends_raise|].
    destruct (filter_kwargs kwargs !! "Body"); [apply appends_raise|].
    apply appends_call. exact I.
Qed.

Lemma s3_to_redshift_harmless (env : Env)
  (name csv role delim quote dfmt tfmt region params : string) :
  appends harmless
    (s3_to_redshift env name csv role delim quote dfmt tfmt region params).
Proof.
  unfold s3_to_redshift, cursor_execute, connect_commit, connect_rollback.
  apply appends_try.
  - apply appends_bind; [|intros _; apply appends_call; exact I].
    apply appends_call. apply copy_statement_no_ddl.
  - intros e. appends_steps.
Qed.

Lemma append_pipeline_harmless (env : Env) (data_frame : DataFrame)
  (name ts_start ts_end : string) (o : Options) (kwargs : gmap string value) :
  append o = true ->
  appends harmless
    (pandas_to_redshift env data_frame name ts_start ts_end o kwargs).
Proof.
  intros Happ. unfold pandas_to_redshift. rewrite Happ.
  apply appends_bind; [apply appends_lift|]. intros df1.
  apply appends_bind.
  { unfold redshift_to_pandas, cursor_execute.
    apply appends_bind; [|intros ?; apply appends_ret].
    apply appends_bind; [apply appends_call; split; reflexivity|].
    intros _ tr. exists []. simpl. now rewrite app_nil_r. }
  intros schema.
  apply appends_bind; [apply appends_lift|]. intros df2.
  apply appends_bind; [apply appends_lift|]. intros l1.
  apply appends_bind; [apply appends_lift|]. intros l2.
  apply appends_bind; [apply df_to_s3_harmless|]. intros _.
  apply appends_bind; [apply appends_ret|]. intros _.
  apply s3_to_redshift_harmless.
Qed.

(** X19: in append mode the pipeline never drops or creates a table.
    Whatever fails or succeeds on the way, no statement it executes begins
    with "drop table" or with "create table". *)
Theorem append_never_drops (env : Env) (data_frame : DataFrame)
  (name ts_start ts_end : string) (o : Options) (kwargs : gmap string value)
  (tr : list Event) :
  append o = true ->
  exists new,
    fst (pandas_to_redshift env data_frame name ts_start ts_end o kwargs tr)
    = tr ++ new
    /\ forall statement,
         In (Execute statement) new ->
         py.startswith "drop table" statement = false
         /\ py.startswith "create table" statement = false.
Proof.
  intros Happ.
  destruct (append_pipeline_harmless env data_frame name ts_start ts_end o
              kwargs Happ tr) as [new [Hnew Hall]].
  exists new. split; [assumption|]. intros statement Hin.
  exact (proj1 (List.Forall_forall _ _) Hall _ Hin).
Qed.

Lemma append_never_drops_witness :
  exists new,
    fst (pandas_to_redshift sample_env sample_raw "t" "2020-01-01"
           "2020-01-02" append_options ∅ [])
    = [] ++ new
    /\ forall statement,
         In (Execute statement) new ->
         py.startswith "drop table" statement = false
         /\ py.startswith "create table" statement = false.
Proof.
  apply (append_never_drops sample_env sample_raw "t" "2020-01-01"
           "2020-01-02" append_options ∅ []).
  reflexivity.
Defined.

(** ** The staged object and the copy statement *)

Lemma startswith_app_l (p a b : string) :
  py.startswith p a = true -> py.startswith p (a +:+ b) = true.
Proof.
  revert a. induction p as [|x p IH]; intros a H; [reflexivity|].
  destruct a as [|y a]; [discriminate|].
  simpl in H. apply andb_true_iff in H as [Hxy Hp].
  change (Ascii.eqb x y && py.startswith p (a +:+ b) = true).
  now rewrite Hxy, (IH a Hp).
Qed.

Lemma startswith_self (p r : string) : py.startswith p (p +:+ r) = true.
Proof.
  induction p as [|x p IH]; [reflexivity|].
  change (Ascii.eqb x x && py.startswith p (p +:+ r) = true).
  now rewrite Ascii.eqb_refl, IH.
Qed.

Lemma find_cons (sub : string) (c : ascii) (s : string) :
  py.find sub (String c s)
  = if py.startswith sub (String c s) then Some O
    else option_map S (py.find sub s).
Proof. reflexivity. Qed.

Lemma contains_app_r (sub a b : string) :
  py.contains sub b = true -> py.contains sub (a +:+ b) = true.
Proof.
  unfold py.contains. intros H.
  induction a as [|c a IH]; [exact H|].
  change (match py.find sub (String c (a +:+ b)) with
          | Some _ => true | None => false end = true).
  rewrite find_cons. destruct (py.startswith sub (String c (a +:+ b)));
    [reflexivity|].
  now destruct (py.find sub (a +:+ b)).
Qed.

Lemma contains_app_l (sub a b : string) :
  py.contains sub a = true -> py.contains sub (a +:+ b) = true.
Proof.
  unfold py.contains. induction a as [|c a IH]; intros H.
  - assert (Hs : py.startswith sub EmptyString = true).
    { simpl in H. now destruct (py.startswith sub EmptyString). }
    destruct sub; [|discriminate]. now destruct b.
  - change (match py.find sub (String c (a +:+ b)) with
            | Some _ => true | None => false end = true).
    rewrite find_cons in *.
    destruct (py.startswith sub (String c a)) eqn:Hp.
    + change (String c (a +:+ b)) with (String c a +:+ b).
      now rewrite (startswith_app_l _ _ b Hp).
    + destruct (py.startswith sub (String c (a +:+ b))); [reflexivity|].
      destruct (py.find sub a); [|discriminate].
      specialize (IH eq_refl). now destruct (py.find sub (a +:+ b)).
Qed.

Lemma contains_self (sub r : string) : py.contains sub (sub +:+ r) = true.
Proof.
  unfold py.contains. destruct (sub +:+ r) as [|c s] eqn:E.
  - destruct sub; [reflexivity | discriminate].
  - rewrite find_cons, <- E. now rewrite startswith_self.
Qed.

(** X20: the copy statement reads the object that was staged.  After
    [connect_to_s3], [df_to_s3] puts the file into the connected bucket
    under the file name itself when no subdirectory was given and under
    [subdirectory/name] otherwise, and the copy statement for the same file
    name contains [from 's3://bucket/key'] for that very bucket and key. *)
Theorem staged_object_is_copied (env connected : Env)
  (aws_access_key_id aws_secret_access_key bucket : string)
  (subdirectory aws_iam_role aws_session_token : option string)
  (data_frame : DataFrame) (csv_name : string) (index : bool)
  (redshift_table_name rs_iam_role delimiter quotechar dateformat timeformat
   region parameters object_key : string)
  (kwargs : gmap string value) (tr : list Event) :
  connected
  = connect_to_s3 env aws_access_key_id aws_secret_access_key bucket
      subdirectory aws_iam_role aws_session_token ->
  object_key
  = match subdirectory with
    | None => csv_name
    | Some directory => directory +:+ "/" +:+ csv_name
    end ->
  filter_kwargs kwargs !! "Body" = None ->
  fst (df_to_s3 connected data_frame csv_name index false delimiter kwargs tr)
  = tr ++ [PutObject bucket object_key
             (to_csv env data_frame index delimiter) (filter_kwargs kwargs)]
  /\ py.contains ("from '" +:+ ("s3://" +:+ bucket +:+ "/" +:+ object_key)
                    +:+ "'")
       (copy_statement connected redshift_table_name csv_name rs_iam_role
          delimiter quotechar dateformat timeformat region parameters)
     = true.
Proof.
  intros -> -> Hbody.
  assert (Hkey : s3_subdirectory_var
                   (connect_to_s3 env aws_access_key_id aws_secret_access_key
                      bucket subdirectory aws_iam_role aws_session_token)
                   +:+ csv_name
                 = match subdirectory with
                   | None => csv_name
                   | Some directory => directory +:+ "/" +:+ csv_name
                   end).
  { destruct subdirectory; simpl; [apply append_assoc | reflexivity]. }
  split.
  - rewrite (df_to_s3_uploads _ _ _ _ _ _ _ _ Hbody (or_introl eq_refl)).
    rewrite Hkey. reflexivity.
  - unfold copy_statement. rewrite Hkey.
    set (key := match subdirectory with
                | None => csv_name
                | Some directory => directory +:+ "/" +:+ csv_name
                end).
    cbn [s3_bucket_var connect_to_s3].
    match goal with
    | |- py.contains ?t ((if ?r then _ else _) +:+ ";") = true =>
        assert (Hcore : forall tail,
                  py.contains t
                    (nl +:+ sp7 +:+ "copy " +:+ redshift_table_name +:+ nl
                       +:+ sp7 +:+ "from '"
                       +:+ ("s3://" +:+ bucket +:+ "/" +:+ key) +:+ "'"
                       +:+ tail) = true)
    end.
    { intros tail.
      apply (contains_app_r _ nl), (contains_app_r _ sp7),
        (contains_app_r _ "copy "), (contains_app_r _ redshift_table_name),
        (contains_app_r _ nl), (contains_app_r _ sp7).
      rewrite <- (append_assoc ("s3://" +:+ bucket +:+ "/" +:+ key) "'" tail).
      rewrite <- (append_assoc "from '"
                    (("s3://" +:+ bucket +:+ "/" +:+ key) +:+ "'") tail).
      apply contains_self. }
    apply contains_app_l.
    destruct (nonempty (aws_token _)); [apply contains_app_l|];
      (destruct (nonempty region); [apply contains_app_l|]); apply Hcore.
Qed.

Lemma staged_object_is_copied_witness :
  fst (df_to_s3
         (connect_to_s3 sample_env "AK" "SK" "lake" (Some "in") None None)
         sample_raw "t.csv" false false "," sample_kwargs [])
  = [] ++ [PutObject "lake" "in/t.csv" "csv" (filter_kwargs sample_kwargs)]
  /\ py.contains ("from '" +:+ ("s3://" +:+ "lake" +:+ "/" +:+ "in/t.csv")
                    +:+ "'")
       (copy_statement
          (connect_to_s3 sample_env "AK" "SK" "lake" (Some "in") None None)
          "t" "t.csv" EmptyString "," dquote "auto" "auto" EmptyString
          EmptyString)
     = true.
Proof.
  apply (staged_object_is_copied sample_env _ "AK" "SK" "lake" (Some "in")
           None None sample_raw "t.csv" false "t" EmptyString "," dquote
           "auto" "auto" EmptyString EmptyString "in/t.csv" sample_kwargs []
           eq_refl eq_refl).
  vm_compute. reflexivity.
Defined.

(** ** Boundaries and rollback, continued *)

Lemma int_ok_inv (s : string) (n : Z) :
  py.int s = Ok n ->
  n = py.decimal_value 0 s /\ py.all_chars py.is_decimal s = true.
Proof.
  unfold py.int.
  destruct (py.int_max_str_digits <? py.leading_digits s)%nat;
    [discriminate|].
  destruct s as [|c s]; [discriminate|].
  destruct (py.all_chars py.is_decimal (String c s)); [|discriminate].
  intros H. injection H as <-. now split.
Qed.

(** X21: a boundary never resolves to a date after today.  The day count
    read from the string is always subtracted, also when the expression
    adds its interval; and a boundary that comes back as a string is the
    string that went in. *)
Theorem date_converter_never_future (today : Z) (ts : string) (b : boundary) :
  _date_converter today ts = Ok b ->
  match b with
  | BDate ordinal => ordinal <= today
  | BStr s => s = ts
  end.
Proof.
  unfold _date_converter.
  destruct (py.contains "current_date" ts).
  - destruct (py.find "interval" ts) as [i|].
    + destruct (py.find "day" ts).
      * destruct (py.int _) as [digit|e] eqn:Hint; simpl; [|discriminate].
        apply int_ok_inv in Hint as [Hdigit Hdec].
        pose proof (decimal_value_nonneg _ 0 Hdec (Z.le_refl 0)) as Hpos.
        unfold datetime.add_days.
        destruct ((- digit <? -2147483648) || (2147483647 <? - digit));
          simpl; [discriminate|].
        destruct (999999999 <? Z.abs (- digit)); simpl; [discriminate|].
        destruct ((0 <? today + - digit)
                  && (today + - digit <=? datetime.MAXORDINAL));
          simpl; [|discriminate].
        intros H. injection H as <-. lia.
      * intros H. injection H as <-. lia.
    + intros H. injection H as <-. lia.
  - intros H. now injection H as <-.
Qed.

Lemma date_converter_never_future_witness :
  _date_converter 739923 "current_date + interval '1 day' " = Ok (BDate 739922)
  /\ 739922 <= 739923.
Proof.
  split; [reflexivity|].
  apply (date_converter_never_future 739923 "current_date + interval '1 day' "
           (BDate 739922)).
  reflexivity.
Defined.

(** X22: when the copy statement fails and the rollback fails too, the
    caller receives the rollback's error, not the error of the statement;
    no commit has been attempted. *)
Theorem copy_rollback_failure (env : Env) (redshift_table_name csv_name
  rs_iam_role delimiter quotechar dateformat timeformat region parameters
  what later s3_to_sql : string) (tr : list Event) :
  s3_to_sql
  = copy_statement env redshift_table_name csv_name rs_iam_role delimiter
      quotechar dateformat timeformat region parameters ->
  execute_error env tr s3_to_sql = Some what ->
  rollback_error env (tr ++ [Execute s3_to_sql]) = Some later ->
  s3_to_redshift env redshift_table_name csv_name rs_iam_role delimiter
    quotechar dateformat timeformat region parameters tr
  = (tr ++ [Execute s3_to_sql; Rollback], Raise (ExternalError later)).
Proof.
  intros -> Hexec Hrollback.
  unfold s3_to_redshift, try_except, mbind, cursor_execute, connect_commit,
    connect_rollback, call, raise.
  rewrite Hexec. simpl. rewrite Hrollback. now rewrite <- app_assoc.
Qed.

Lemma copy_rollback_failure_witness :
  s3_to_redshift broken_env "t" "t.csv" EmptyString "," dquote "auto" "auto"
    EmptyString EmptyString []
  = ([] ++ [ Execute (copy_statement broken_env "t" "t.csv" EmptyString ","
                        dquote "auto" "auto" EmptyString EmptyString);
             Rollback ],
     Raise (ExternalError "connection already closed")).
Proof.
  apply (copy_rollback_failure broken_env "t" "t.csv" EmptyString "," dquote
           "auto" "auto" EmptyString EmptyString "server closed" _ _ []);
    reflexivity.
Defined.
